(** * A shallow embedding of the vless_automation pipeline

    Python [str] values are modelled as [string], i.e. as the sequence of
    their UTF-8 bytes. [int()], [str.isdigit()] and [_is_valid_ip] decode
    them and follow the character classes of CPython 3.11 (Unicode 14.0);
    elsewhere character classes such as [\d] and [\s] are read on ASCII.
    Python [int] is [Z]. *)

From Stdlib Require Import String Ascii List ZArith Bool Lia.
Import ListNotations.
Open Scope list_scope.
Open Scope string_scope.

(* ------------------------------------------------------------------ *)
(** ** Character classes and small string operations *)

Definition is_digit (c : ascii) : bool :=
  let n := nat_of_ascii c in (48 <=? n)%nat && (n <=? 57)%nat.

Definition digit_value (c : ascii) : Z := Z.of_nat (nat_of_ascii c - 48).

(** [str.isspace] on ASCII: \t \n \x0b \x0c \r \x1c-\x1f and space. *)
Definition is_space (c : ascii) : bool :=
  let n := nat_of_ascii c in
  ((9 <=? n)%nat && (n <=? 13)%nat) || ((28 <=? n)%nat && (n <=? 32)%nat).

Fixpoint contains (c : ascii) (s : string) : bool :=
  match s with
  | EmptyString => false
  | String d r => Ascii.eqb c d || contains c r
  end.

Fixpoint all_chars (p : ascii -> bool) (s : string) : bool :=
  match s with
  | EmptyString => true
  | String c r => p c && all_chars p r
  end.

(** Longest prefix whose characters satisfy [p], and the rest. *)
Fixpoint span (p : ascii -> bool) (s : string) : string * string :=
  match s with
  | EmptyString => (EmptyString, EmptyString)
  | String c r =>
      if p c then let (a, b) := span p r in (String c a, b)
      else (EmptyString, s)
  end.

Fixpoint starts_with (pre s : string) : bool :=
  match pre, s with
  | EmptyString, _ => true
  | String c p, String d r => Ascii.eqb c d && starts_with p r
  | String _ _, EmptyString => false
  end.

(** Python [s.split(sep)] for a one-character separator. *)
Fixpoint split_on (sep : ascii) (s : string) : list string :=
  match s with
  | EmptyString => [EmptyString]
  | String c r =>
      if Ascii.eqb c sep then EmptyString :: split_on sep r
      else match split_on sep r with
           | [] => [String c EmptyString]
           | w :: ws => String c w :: ws
           end
  end.

(** Python [s.split(sep, 1)], as [Some (before, after)] when [sep] occurs. *)
Fixpoint split_once (sep : ascii) (s : string) : option (string * string) :=
  match s with
  | EmptyString => None
  | String c r =>
      if Ascii.eqb c sep then Some (EmptyString, r)
      else match split_once sep r with
           | Some (a, b) => Some (String c a, b)
           | None => None
           end
  end.

(** Python [s.rsplit(sep, 1)], as [Some (before, after)] when [sep] occurs. *)
Fixpoint rsplit_once (sep : ascii) (s : string) : option (string * string) :=
  match s with
  | EmptyString => None
  | String c r =>
      match rsplit_once sep r with
      | Some (a, b) => Some (String c a, b)
      | None => if Ascii.eqb c sep then Some (EmptyString, r) else None
      end
  end.

Fixpoint join (sep : string) (xs : list string) : string :=
  match xs with
  | [] => EmptyString
  | [x] => x
  | x :: r => x ++ sep ++ join sep r
  end.

Fixpoint lstrip (s : string) : string :=
  match s with
  | String c r => if is_space c then lstrip r else s
  | EmptyString => EmptyString
  end.

Definition rstrip (s : string) : string :=
  string_of_list_ascii (rev (list_ascii_of_string (lstrip
    (string_of_list_ascii (rev (list_ascii_of_string s)))))).

(** Python [s.strip()]. *)
Definition strip (s : string) : string := rstrip (lstrip s).

Definition mem (x : string) (xs : list string) : bool :=
  existsb (String.eqb x) xs.

(* ------------------------------------------------------------------ *)
(** ** Node merging (src/main.py, VlessAutomation.merge_nodes) *)

Definition is_digit_or_dot (c : ascii) : bool :=
  is_digit c || Ascii.eqb c ".".

(** The match of [@([\d\.]+):(\d+)] starting right after an ['@']: the
    greedy [[\d\.]+] cannot give back a character that could be [':'],
    so the only candidate is the longest run. *)
Definition match_after_at (s : string) : option string :=
  let (host, t) := span is_digit_or_dot s in
  match host, t with
  | String _ _, String c t' =>
      if Ascii.eqb c ":" then
        let (port, _) := span is_digit t' in
        match port with
        | String _ _ => Some (host ++ ":" ++ port)
        | EmptyString => None
        end
      else None
  | _, _ => None
  end.

(** [re.search(r'@([\d\.]+):(\d+)', node)] turned into the key
    [f"{group(1)}:{group(2)}"]; [None] when there is no match. *)
Fixpoint extract_ip_port_key (node : string) : option string :=
  match node with
  | EmptyString => None
  | String c r =>
      if Ascii.eqb c "@" then
        match match_after_at r with
        | Some k => Some k
        | None => extract_ip_port_key r
        end
      else extract_ip_port_key r
  end.

(** The loop over [all_nodes]; one [seen] set holds both the extracted
    keys and the literal texts of the nodes without a key. *)
Fixpoint merge_loop (seen : list string) (nodes : list string) : list string :=
  match nodes with
  | [] => []
  | node :: rest =>
      match extract_ip_port_key node with
      | Some key =>
          if mem key seen then merge_loop seen rest
          else node :: merge_loop (key :: seen) rest
      | None =>
          if mem node seen then merge_loop seen rest
          else node :: merge_loop (node :: seen) rest
      end
  end.

Definition merge_nodes (local_nodes remote_nodes : list string) : list string :=
  merge_loop [] (app local_nodes remote_nodes).




(** [merge_loop] with the key search left as an argument [key]. Python's
    [\d] in [@([\d\.]+):(\d+)] also matches non-ASCII decimal digits, so
    the results below hold for any [key] whose keys never start with
    ["vless://"]; every key of that pattern starts with a digit or a dot.
    [merge_loop_by extract_ip_port_key] is [merge_loop]. *)
Fixpoint merge_loop_by (key : string -> option string) (seen nodes : list string)
    : list string :=
  match nodes with
  | [] => []
  | node :: rest =>
      match key node with
      | Some k =>
          if mem k seen then merge_loop_by key seen rest
          else node :: merge_loop_by key (k :: seen) rest
      | None =>
          if mem node seen then merge_loop_by key seen rest
          else node :: merge_loop_by key (node :: seen) rest
      end
  end.

Definition merge_nodes_by (key : string -> option string)
    (local_nodes remote_nodes : list string) : list string :=
  merge_loop_by key [] (app local_nodes remote_nodes).

Definition node_id_by (key : string -> option string) (node : string) : string :=
  match key node with
  | Some k => k
  | None => node
  end.

(** The keys of the nodes that have one, in order. *)
Definition keys_of (key : string -> option string) (nodes : list string) : list string :=
  flat_map (fun n => match key n with Some k => [k] | None => [] end) nodes.

(** Spec side: the identity a URI is deduplicated by is its [(host, port)]
    key, or, for a URI without one, its full literal text, the two kinds
    kept apart. *)
Definition spec_identity (key : string -> option string) (node : string) : string + string :=
  match key node with
  | Some k => inl k
  | None => inr node
  end.

Definition identity_eqb (a b : string + string) : bool :=
  match a, b with
  | inl x, inl y => String.eqb x y
  | inr x, inr y => String.eqb x y
  | _, _ => false
  end.

(** The element at position [i] of [l], unless an earlier element is
    [same] as it. *)
Definition first_pick (same : string -> string -> bool) (l : list string) (i : nat)
    : list string :=
  match nth_error l i with
  | Some x => if existsb (fun y => same y x) (firstn i l) then [] else [x]
  | None => []
  end.

(** Spec side: the elements of [l] that no earlier element shares its
    identity with, in the order of [l]. *)
Definition keep_first (key : string -> option string) (l : list string) : list string :=
  concat (map (first_pick (fun y x => identity_eqb (spec_identity key y) (spec_identity key x)) l)
              (seq 0 (length l))).

(* ------------------------------------------------------------------ *)
(** ** Python [int] and [str] on decimal numerals *)

Fixpoint digits_val_acc (acc : Z) (s : string) : Z :=
  match s with
  | EmptyString => acc
  | String c r => digits_val_acc (acc * 10 + digit_value c) r
  end.

(** [str.isdigit()] on ASCII text: non-empty and made of the digits 0-9. *)
Definition ascii_isdigit (s : string) : bool :=
  match s with
  | EmptyString => false
  | String _ _ => all_chars is_digit s
  end.

(** *** Code points

    The character classes below are those of CPython 3.11, whose Unicode
    database is version 14.0.0. *)

Definition byte_val (c : ascii) : Z := Z.of_nat (nat_of_ascii c).

Definition cont_val (c : ascii) : option Z :=
  let b := byte_val c in
  if (128 <=? b)%Z && (b <? 192)%Z then Some (b - 128)%Z else None.

(** The code points of a Python [str] from its UTF-8 bytes; [None] for
    bytes that no [str] encodes to. *)
Fixpoint utf8_decode (s : string) : option (list Z) :=
  match s with
  | EmptyString => Some []
  | String c r =>
      let b := byte_val c in
      if (b <? 128)%Z then option_map (cons b) (utf8_decode r)
      else if (b <? 192)%Z then None
      else if (b <? 224)%Z then
        match r with
        | String c1 r1 =>
            match cont_val c1 with
            | Some v1 => option_map (cons ((b - 192) * 64 + v1)%Z) (utf8_decode r1)
            | None => None
            end
        | EmptyString => None
        end
      else if (b <? 240)%Z then
        match r with
        | String c1 (String c2 r2) =>
            match cont_val c1, cont_val c2 with
            | Some v1, Some v2 =>
                option_map (cons ((b - 224) * 4096 + v1 * 64 + v2)%Z) (utf8_decode r2)
            | _, _ => None
            end
        | _ => None
        end
      else if (b <? 248)%Z then
        match r with
        | String c1 (String c2 (String c3 r3)) =>
            match cont_val c1, cont_val c2, cont_val c3 with
            | Some v1, Some v2, Some v3 =>
                option_map (cons ((b - 240) * 262144 + v1 * 4096 + v2 * 64 + v3)%Z)
                           (utf8_decode r3)
            | _, _, _ => None
            end
        | _ => None
        end
      else None
  end.

(** The first code point of each run of ten decimal digits (general
    category Nd) 0-9. *)
Definition nd_starts : list Z :=
  [48; 1632; 1776; 1984; 2406; 2534; 2662; 2790; 2918; 3046; 3174; 3302; 3430;
   3558; 3664; 3792; 3872; 4160; 4240; 6112; 6160; 6470; 6608; 6784; 6800; 6992;
   7088; 7232; 7248; 42528; 43216; 43264; 43472; 43504; 43600; 44016; 65296;
   66720; 68912; 69734; 69872; 69942; 70096; 70384; 70736; 70864; 71248; 71360;
   71472; 71904; 72016; 72784; 73040; 73120; 92768; 92864; 93008; 120782; 120792;
   120802; 120812; 120822; 123200; 123632; 125264; 130032]%Z.

(** [unicodedata.decimal]: the value of a decimal digit. *)
Definition uni_decimal (cp : Z) : option Z :=
  match find (fun st => (st <=? cp)%Z && (cp <? st + 10)%Z) nd_starts with
  | Some st => Some (cp - st)%Z
  | None => None
  end.



(** The whitespace code points from 128 on. *)
Definition space_nonascii : list Z :=
  [133; 160; 5760; 8192; 8193; 8194; 8195; 8196; 8197; 8198; 8199; 8200; 8201;
   8202; 8232; 8233; 8239; 8287; 12288]%Z.

(** [ch.isspace()] for one character. *)
Definition uni_isspace (cp : Z) : bool :=
  if (cp <? 128)%Z then is_space (ascii_of_nat (Z.to_nat cp))
  else existsb (Z.eqb cp) space_nonascii.


(** *** Python [int] *)

(** The whitespace [PyLong_FromString] skips: \t \n \x0b \x0c \r and space. *)
Definition is_int_space (c : ascii) : bool :=
  let n := nat_of_ascii c in ((9 <=? n)%nat && (n <=? 13)%nat) || (n =? 32)%nat.

Fixpoint int_lstrip (s : string) : string :=
  match s with
  | String c r => if is_int_space c then int_lstrip r else s
  | EmptyString => EmptyString
  end.

Definition int_strip (s : string) : string :=
  string_of_list_ascii (rev (list_ascii_of_string (int_lstrip
    (string_of_list_ascii (rev (list_ascii_of_string (int_lstrip s))))))).

(** The digits of [int(s)] after the sign: digits, with single
    underscores allowed between two digits. *)
Fixpoint int_body_acc (acc : Z) (prev_digit : bool) (s : string) : option Z :=
  match s with
  | EmptyString => if prev_digit then Some acc else None
  | String c r =>
      if is_digit c then int_body_acc (acc * 10 + digit_value c) true r
      else if Ascii.eqb c "_" && prev_digit then int_body_acc acc false r
      else None
  end.

(** [PyLong_FromString] in base 10 on ASCII text: surrounding whitespace,
    an optional sign, then the digits. *)
Definition ascii_int (s : string) : option Z :=
  let t := int_strip s in
  match t with
  | String c r =>
      if Ascii.eqb c "+" then int_body_acc 0 false r
      else if Ascii.eqb c "-" then option_map Z.opp (int_body_acc 0 false r)
      else int_body_acc 0 false t
  | EmptyString => None
  end.

(** [_PyUnicode_TransformDecimalAndSpaceToASCII]: a character below 127
    is kept, a whitespace character becomes a space, a decimal digit its
    ASCII digit; any other character makes [int] fail. *)
Fixpoint int_transform (cps : list Z) : option string :=
  match cps with
  | [] => Some EmptyString
  | cp :: r =>
      let c :=
        if (cp <? 127)%Z then Some (ascii_of_nat (Z.to_nat cp))
        else if uni_isspace cp then Some " "%char
        else option_map (fun d => ascii_of_nat (48 + Z.to_nat d)) (uni_decimal cp) in
      match c, int_transform r with
      | Some c, Some t => Some (String c t)
      | _, _ => None
      end
  end.

(** Python [int(s)]: [None] where Python raises [ValueError]. The limit
    of 4300 digits of CPython 3.11 is not modelled. *)
Definition py_int (s : string) : option Z :=
  match utf8_decode s with
  | Some cps =>
      match int_transform cps with
      | Some t => ascii_int t
      | None => None
      end
  | None => None
  end.

(** The UTF-8 bytes of a code point. *)
Definition utf8_encode_cp (cp : Z) : string :=
  let b z := ascii_of_nat (Z.to_nat z) in
  if (cp <? 128)%Z then String (b cp) EmptyString
  else if (cp <? 2048)%Z then
    String (b (192 + cp / 64)%Z) (String (b (128 + cp mod 64)%Z) EmptyString)
  else if (cp <? 65536)%Z then
    String (b (224 + cp / 4096)%Z) (String (b (128 + (cp / 64) mod 64)%Z)
      (String (b (128 + cp mod 64)%Z) EmptyString))
  else
    String (b (240 + cp / 262144)%Z) (String (b (128 + (cp / 4096) mod 64)%Z)
      (String (b (128 + (cp / 64) mod 64)%Z) (String (b (128 + cp mod 64)%Z) EmptyString))).

Fixpoint utf8_encode (cps : list Z) : string :=
  match cps with
  | [] => EmptyString
  | cp :: r => utf8_encode_cp cp ++ utf8_encode r
  end.

Fixpoint drop_spaces (cps : list Z) : list Z :=
  match cps with
  | cp :: r => if uni_isspace cp then drop_spaces r else cps
  | [] => []
  end.

(** Python [s.strip()] with its Unicode whitespace. *)
Definition py_strip (s : string) : string :=
  match utf8_decode s with
  | Some cps => utf8_encode (rev (drop_spaces (rev (drop_spaces cps))))
  | None => s
  end.


Fixpoint str_nat_aux (fuel n : nat) (acc : string) : string :=
  match fuel with
  | O => acc
  | S f =>
      let acc' := String (ascii_of_nat (48 + n mod 10)) acc in
      match n / 10 with
      | O => acc'
      | q => str_nat_aux f q acc'
      end
  end.

(** Python [str(n)] for [n >= 0]. *)
Definition str_nat (n : nat) : string := str_nat_aux (S n) n EmptyString.

(** Python [str(n)] on [int]. *)
Definition str_Z (z : Z) : string :=
  match z with
  | Zneg _ => String "-" (str_nat (Z.to_nat (Z.abs z)))
  | _ => str_nat (Z.to_nat z)
  end.

(* ------------------------------------------------------------------ *)
(** ** IPv4 validation (src/utils/csv_processor.py, CSVProcessor._is_valid_ip) *)





(** [_is_valid_ip] on ASCII text, where it never raises and agrees with
    [ip_check] (lemma [ip_check_ascii]); the regex fallback of
    [parse_csv] only passes it ASCII digits and dots. *)
Definition is_valid_octet (part : string) : bool :=
  ascii_isdigit part &&
  (let num := digits_val_acc 0 part in (0 <=? num)%Z && (num <=? 255)%Z).

Definition is_valid_ip (ip : string) : bool :=
  match ip with
  | EmptyString => false
  | String _ _ =>
      let parts := split_on "." ip in
      (length parts =? 4)%nat && forallb is_valid_octet parts
  end.

(* ------------------------------------------------------------------ *)
(** ** Configuration (src/config.py) *)

Record Config := {
  UUID : string;
  HOST : string;
  SNI : string;
  FINGERPRINT : string;
  DEFAULT_PORT : Z;
  FORCE_PORT_443 : bool;
  REMARKS_PREFIX : string;
  CUSTOM_PATH : string;
  MAX_DAYS_TO_KEEP : Z;
  AUTO_DELETE_OLD_NODES : bool
}.

(** The defaults of [Config.__init__]. *)
Definition default_config : Config := {|
  UUID := "471a8e64-7b21-4703-b1d1-45a221098459";
  HOST := "knny.dpdns.org";
  SNI := "knny.dpdns.org";
  FINGERPRINT := "chrome";
  DEFAULT_PORT := 443;
  FORCE_PORT_443 := true;
  REMARKS_PREFIX := "香港节点-";
  CUSTOM_PATH := "/?ed=2048";
  MAX_DAYS_TO_KEEP := 10;
  AUTO_DELETE_OLD_NODES := true
|}.

(* ------------------------------------------------------------------ *)
(** ** Percent-encoding (urllib.parse.quote / unquote, on UTF-8 bytes) *)

Definition hex_char (n : nat) : ascii :=
  if (n <? 10)%nat then ascii_of_nat (48 + n) else ascii_of_nat (55 + n).

(** [_ALWAYS_SAFE] and the default [safe='/']. *)
Definition quote_safe (c : ascii) : bool :=
  let n := nat_of_ascii c in
  ((65 <=? n)%nat && (n <=? 90)%nat) || ((97 <=? n)%nat && (n <=? 122)%nat) ||
  is_digit c || Ascii.eqb c "_" || Ascii.eqb c "." || Ascii.eqb c "-" ||
  Ascii.eqb c "~" || Ascii.eqb c "/".

Fixpoint quote (s : string) : string :=
  match s with
  | EmptyString => EmptyString
  | String c r =>
      if quote_safe c then String c (quote r)
      else let n := nat_of_ascii c in
           String "%" (String (hex_char (n / 16)) (String (hex_char (n mod 16)) (quote r)))
  end.

Definition hex_value (c : ascii) : option nat :=
  let n := nat_of_ascii c in
  if (48 <=? n)%nat && (n <=? 57)%nat then Some (n - 48)%nat
  else if (65 <=? n)%nat && (n <=? 70)%nat then Some (n - 55)%nat
  else if (97 <=? n)%nat && (n <=? 102)%nat then Some (n - 87)%nat
  else None.

(** [unquote]: a ["%"] followed by two hex digits becomes that byte;
    any other ["%"] is kept.  It never fails. *)
Fixpoint unquote (s : string) : string :=
  match s with
  | EmptyString => EmptyString
  | String c r =>
      if Ascii.eqb c "%" then
        match r with
        | String h1 (String h2 r') =>
            match hex_value h1, hex_value h2 with
            | Some a, Some b => String (ascii_of_nat (a * 16 + b)) (unquote r')
            | _, _ => String c (unquote r)
            end
        | _ => String c (unquote r)
        end
      else String c (unquote r)
  end.

(* ------------------------------------------------------------------ *)
(** ** Link synthesis (src/main.py, generate_vless_nodes and
       _create_vless_link; VlessGenerator has the same code) *)

Definition vless_params (cfg : Config) : list (string * string) :=
  [("encryption", "none"); ("security", "tls"); ("sni", SNI cfg);
   ("fp", FINGERPRINT cfg); ("type", "ws"); ("host", HOST cfg);
   ("path", CUSTOM_PATH cfg); ("alpn", "h2,http/1.1"); ("flow", EmptyString)].

Definition create_vless_link (cfg : Config) (ip : string) (port : Z)
    (remark : string) : string :=
  let query_params :=
    join "&" (map (fun kv => fst kv ++ "=" ++ quote (snd kv)) (vless_params cfg)) in
  "vless://" ++ UUID cfg ++ "@" ++ ip ++ ":" ++ str_Z port ++ "?" ++
  query_params ++ "#" ++ quote remark.

(** [str.zfill(width)] for a string without sign. *)
Definition zfill (width : nat) (s : string) : string :=
  string_of_list_ascii (repeat "0"%char (width - String.length s)) ++ s.

(** A Python dict with string keys, as an association list. *)
Fixpoint dict_get {V} (d : list (string * V)) (k : string) : option V :=
  match d with
  | [] => None
  | (k', v) :: r => if String.eqb k k' then Some v else dict_get r k
  end.

Fixpoint dict_set {V} (d : list (string * V)) (k : string) (v : V)
    : list (string * V) :=
  match d with
  | [] => [(k, v)]
  | (k', v') :: r =>
      if String.eqb k k' then (k, v) :: r else (k', v') :: dict_set r k v
  end.

(** [".".join(ip.split(".")[:2])] *)
Definition ip_prefix (ip : string) : string := join "." (firstn 2 (split_on "." ip)).

Definition make_remark (cfg : Config) (today sequence : string) (port : Z)
    (ip : string) : string :=
  REMARKS_PREFIX cfg ++ today ++ "-" ++ sequence ++ "-" ++ str_Z port ++ "-" ++ ip.

(** The loop body threads [node_counter]; [today] is
    [datetime.now().strftime("%m%d")]. *)
Fixpoint generate_loop (cfg : Config) (today : string)
    (node_counter : list (string * Z)) (pairs : list (string * Z)) : list string :=
  match pairs with
  | [] => []
  | (ip, port) :: rest =>
      let final_port := if FORCE_PORT_443 cfg then 443%Z else port in
      let p := ip_prefix ip in
      let c0 := match dict_get node_counter p with Some v => v | None => 0%Z end in
      let node_counter' := dict_set node_counter p (c0 + 1)%Z in
      let sequence := zfill 2 (str_Z (c0 + 1)) in
      let remark := make_remark cfg today sequence final_port ip in
      create_vless_link cfg ip final_port remark ::
      generate_loop cfg today node_counter' rest
  end.

Definition generate_vless_nodes (cfg : Config) (today : string)
    (ip_port_pairs : list (string * Z)) : list string :=
  generate_loop cfg today [] ip_port_pairs.

(** The label counter as the spec words it: the sequence of a record is
    one more than the number of earlier records with the same two-octet
    prefix. *)
Fixpoint count_prefix (p : string) (prev : list (string * Z)) : nat :=
  match prev with
  | [] => O
  | (ip, _) :: r =>
      ((if String.eqb (ip_prefix ip) p then 1 else 0) + count_prefix p r)%nat
  end.

Definition node_with_sequence (cfg : Config) (today : string)
    (record : string * Z) (sequence : nat) : string :=
  let (ip, port) := record in
  let final_port := if FORCE_PORT_443 cfg then 443%Z else port in
  create_vless_link cfg ip final_port
    (make_remark cfg today (zfill 2 (str_nat sequence)) final_port ip).

Fixpoint labelled_nodes (cfg : Config) (today : string)
    (prev rest : list (string * Z)) : list string :=
  match rest with
  | [] => []
  | r :: rs =>
      node_with_sequence cfg today r (S (count_prefix (ip_prefix (fst r)) prev)) ::
      labelled_nodes cfg today (app prev [r]) rs
  end.

(* ------------------------------------------------------------------ *)
(** ** Link parsing (src/utils/yaml_generator.py, _parse_vless_url) *)

Record ProxyInfo := {
  pi_name : string;
  pi_type : string;
  pi_server : string;
  pi_port : Z;
  pi_uuid : string;
  pi_network : string;
  pi_tls : bool;
  pi_sni : string;
  pi_host : string;
  pi_path : string;
  pi_alpn : list string;
  pi_fingerprint : string;
  pi_udp : bool;
  pi_skip_cert_verify : bool
}.

(** The [params] dict filled in query order: a later key overrides. *)
Fixpoint parse_params (params : list (string * string)) (items : list string)
    : list (string * string) :=
  match items with
  | [] => params
  | param :: rest =>
      match split_once "=" param with
      | Some (key, value) => parse_params (dict_set params key (unquote value)) rest
      | None => parse_params params rest
      end
  end.

Definition params_get (params : list (string * string)) (k d : string) : string :=
  match dict_get params k with Some v => v | None => d end.

(** [_parse_vless_url]: [inl e] where it raises [ValueError(e)]. *)
Definition parse_vless_url_r (cfg : Config) (url : string) : string + ProxyInfo :=
  if negb (starts_with "vless://" url) then inl "不是有效的Vless链接" else
  let url := substring 8 (String.length url - 8) url in
  match split_once "@" url with
  | None => inl "无效的Vless格式"
  | Some (uuid, rest) =>
      let '(server_port, query_part) :=
        match split_once "?" rest with
        | Some (a, b) => (a, b)
        | None => (rest, EmptyString)
        end in
      match rsplit_once ":" server_port with
      | None => inl "缺少端口号"
      | Some (server, port_str) =>
          let port := match py_int port_str with
                      | Some p => p
                      | None => DEFAULT_PORT cfg
                      end in
          let '(query_part, remark) :=
            match split_once "#" query_part with
            | Some (q, r) => (q, unquote r)
            | None => (query_part, EmptyString)
            end in
          let params :=
            match query_part with
            | EmptyString => []
            | _ => parse_params [] (split_on "&" query_part)
            end in
          let alpn_param := params_get params "alpn" EmptyString in
          let alpn_list :=
            match alpn_param with
            | EmptyString => ["h2"; "http/1.1"]
            | _ => filter (fun a => negb (String.eqb a EmptyString))
                     (map strip (split_on "," alpn_param))
            end in
          inr {|
            pi_name := match remark with
                       | EmptyString => "节点-" ++ server ++ ":" ++ str_Z port
                       | _ => remark
                       end;
            pi_type := "vless";
            pi_server := server;
            pi_port := port;
            pi_uuid := uuid;
            pi_network := params_get params "type" "ws";
            pi_tls := String.eqb (params_get params "security" EmptyString) "tls";
            pi_sni := params_get params "sni" (SNI cfg);
            pi_host := params_get params "host" (HOST cfg);
            pi_path := params_get params "path" (CUSTOM_PATH cfg);
            pi_alpn := alpn_list;
            pi_fingerprint := params_get params "fp" (FINGERPRINT cfg);
            pi_udp := true;
            pi_skip_cert_verify := false
          |}
      end
  end.

(** [None] where [_parse_vless_url] raises. *)
Definition parse_vless_url (cfg : Config) (url : string) : option ProxyInfo :=
  match parse_vless_url_r cfg url with
  | inr p => Some p
  | inl _ => None
  end.

(* ------------------------------------------------------------------ *)
(** ** Rendering (src/utils/yaml_generator.py) *)

(** The double-quote and backslash characters. *)
Definition dq : string := String (ascii_of_nat 34) EmptyString.
Definition bs : string := String (ascii_of_nat 92) EmptyString.

Definition quoted (s : string) : string := dq ++ s ++ dq.

Definition lines (xs : list string) : string := join (String (ascii_of_nat 10) EmptyString) xs.

(** [_generate_empty_yaml]; the minimal configuration of
    [_build_yaml_content] is the same text. *)
Definition generate_empty_yaml : string :=
  lines ["mixed-port: 7890"; "allow-lan: true"; "mode: rule"; "log-level: info";
         "proxies: []"; "proxy-groups:"; "  - name: 🚀 代理"; "    type: select";
         "    proxies: []"; "rules:"; "  - GEOIP,CN,DIRECT"; "  - MATCH,🚀 代理";
         EmptyString].

(** [c.isprintable() or c.isspace()]; bytes of non-ASCII characters are
    kept, as for printable characters. *)
Definition printable_or_space (c : ascii) : bool :=
  let n := nat_of_ascii c in
  (128 <=? n)%nat || ((32 <=? n)%nat && (n <=? 126)%nat) || is_space c.

Fixpoint filter_chars (p : ascii -> bool) (s : string) : string :=
  match s with
  | EmptyString => EmptyString
  | String c r => if p c then String c (filter_chars p r) else filter_chars p r
  end.

(** The class [[{}<>\[\]|&*#!%^@`~]] of the [re.sub] in [_build_yaml_content]. *)
Definition name_removed (c : ascii) : bool :=
  contains c ("{}<>[]|&*#!%^@`~").

Definition safe_name (proxy : ProxyInfo) : string :=
  let n := filter_chars printable_or_space (pi_name proxy) in
  let n := filter_chars (fun c => negb (Ascii.eqb c "010"%char || Ascii.eqb c "013"%char)) n in
  let n := strip n in
  let n := match n with
           | EmptyString => "节点-" ++ pi_server proxy ++ ":" ++ str_Z (pi_port proxy)
           | _ => n
           end in
  strip (filter_chars (fun c => negb (name_removed c)) n).

Definition py_bool (b : bool) : string := if b then "true" else "false".

Definition proxy_lines (name : string) (proxy : ProxyInfo) : list string :=
  ["  - name: " ++ quoted name;
   "    type: " ++ pi_type proxy;
   "    server: " ++ quoted (pi_server proxy);
   "    port: " ++ str_Z (pi_port proxy);
   "    uuid: " ++ quoted (pi_uuid proxy);
   "    network: " ++ quoted (pi_network proxy);
   "    tls: " ++ py_bool (pi_tls proxy)] ++
  (if pi_tls proxy then
     (match pi_sni proxy with
      | EmptyString => []
      | sni => ["    servername: " ++ quoted sni]
      end) ++
     (match pi_fingerprint proxy with
      | EmptyString => []
      | fp => ["    fingerprint: " ++ quoted fp]
      end) ++
     (match pi_alpn proxy with
      | [] => []
      | alpn =>
          "    alpn:" ::
          flat_map (fun item => match strip item with
                                | EmptyString => []
                                | it => ["      - " ++ quoted it]
                                end) alpn
      end)
   else []) ++
  (if String.eqb (pi_network proxy) "ws" then
     ["    ws-opts:"; "      path: " ++ quoted (pi_path proxy); "      headers:";
      "        Host: " ++ quoted (pi_host proxy)]
   else []) ++
  ["    udp: " ++ py_bool (pi_udp proxy);
   "    skip-cert-verify: " ++ py_bool (pi_skip_cert_verify proxy);
   EmptyString].

(** The f-string of [_build_yaml_content]; the two lists are inserted as
    already joined text. *)
Definition yaml_template (timestamp : string) (count : nat)
    (proxies_yaml proxy_names_yaml : string) : string :=
  lines [
    "# Clash 配置";
    "# 生成时间: " ++ timestamp;
    "# 节点数量: " ++ str_nat count;
    EmptyString;
    "mixed-port: 7890";
    "socks-port: 7891";
    "allow-lan: true";
    "mode: rule";
    "log-level: info";
    "external-controller: 127.0.0.1:9090";
    EmptyString;
    "proxies:";
    proxies_yaml;
    EmptyString;
    "proxy-groups:";
    "  - name: 🚀 节点选择";
    "    type: select";
    "    proxies:";
    proxy_names_yaml;
    "  - name: ♻️ 自动选择";
    "    type: url-test";
    "    url: http://www.gstatic.com/generate_204";
    "    interval: 300";
    "    proxies:";
    proxy_names_yaml;
    "  - name: 📲 国外媒体";
    "    type: select";
    "    proxies:";
    "      - 🚀 节点选择";
    "      - ♻️ 自动选择";
    "      - DIRECT";
    EmptyString;
    "rules:";
    "  - DOMAIN-SUFFIX,openai.com,📲 国外媒体";
    "  - DOMAIN-SUFFIX,chatgpt.com,📲 国外媒体";
    "  - DOMAIN-SUFFIX,bing.com,📲 国外媒体";
    "  - DOMAIN-SUFFIX,github.com,📲 国外媒体";
    "  - DOMAIN-SUFFIX,gitlab.com,📲 国外媒体";
    "  - DOMAIN-SUFFIX,twitter.com,📲 国外媒体";
    "  - DOMAIN-SUFFIX,facebook.com,📲 国外媒体";
    "  - DOMAIN-SUFFIX,instagram.com,📲 国外媒体";
    "  - DOMAIN-SUFFIX,youtube.com,📲 国外媒体";
    "  - DOMAIN-SUFFIX,netflix.com,📲 国外媒体";
    "  - DOMAIN-SUFFIX,disneyplus.com,📲 国外媒体";
    "  - DOMAIN-SUFFIX,spotify.com,📲 国外媒体";
    "  - DOMAIN-SUFFIX,telegram.org,📲 国外媒体";
    "  - DOMAIN-SUFFIX,whatsapp.com,📲 国外媒体";
    "  - DOMAIN-SUFFIX,discord.com,📲 国外媒体";
    "  - DOMAIN-SUFFIX,google.com,📲 国外媒体";
    "  - DOMAIN-SUFFIX,gstatic.com,📲 国外媒体";
    "  - GEOIP,CN,DIRECT";
    "  - MATCH,🚀 节点选择";
    EmptyString].

(** Substring test [needle in s]. *)
Fixpoint contains_sub (needle s : string) : bool :=
  starts_with needle s ||
  match s with
  | EmptyString => false
  | String _ r => contains_sub needle r
  end.

Definition leading_spaces (line : string) : nat :=
  String.length line - String.length (lstrip line).

(** [value.replace('"', '\\"')] *)
Fixpoint escape_dq (s : string) : string :=
  match s with
  | EmptyString => EmptyString
  | String c r =>
      if Ascii.eqb c "034"%char then bs ++ dq ++ escape_dq r
      else String c (escape_dq r)
  end.

(** The characters [':[]{}#&*!|>\\%@`\''] that make [_validate_yaml]
    quote a value. *)
Definition needs_quotes (value : string) : bool :=
  existsb (fun c => contains c value)
    [":"; "["; "]"; "{"; "}"; "#"; "&"; "*"; "!"; "|"; ">"; "092"; "%"; "@"; "`"; "'"]%char.

Definition rebuild_line (line : string) : string :=
  let indent := string_of_list_ascii (repeat " "%char (leading_spaces line)) in
  let '(k, v) := match split_once ":" line with
                 | Some (k, v) => (k, v)
                 | None => (line, EmptyString)
                 end in
  let key := strip k in
  let value := strip v in
  match value with
  | EmptyString => indent ++ key ++ ":"
  | _ => if needs_quotes value then indent ++ key ++ ": " ++ quoted (escape_dq value)
         else indent ++ key ++ ": " ++ value
  end.

Fixpoint validate_lines (in_alpn_list : bool) (alpn_indent : nat)
    (ls : list string) : list string :=
  match ls with
  | [] => []
  | line :: rest =>
      let line := rstrip line in
      match strip line with
      | EmptyString => EmptyString :: validate_lines false alpn_indent rest
      | stripped =>
          if contains_sub "alpn:" line && negb (starts_with "#" stripped) then
            line :: validate_lines true (leading_spaces line) rest
          else
            let in_alpn_list :=
              if in_alpn_list && (leading_spaces line <=? alpn_indent)%nat
              then false else in_alpn_list in
            let line :=
              if contains ":" line && negb in_alpn_list then rebuild_line line
              else line in
            line :: validate_lines in_alpn_list alpn_indent rest
      end
  end.

Definition blank (l : string) : bool :=
  match strip l with EmptyString => true | _ => false end.

Fixpoint drop_while (p : string -> bool) (ls : list string) : list string :=
  match ls with
  | [] => []
  | l :: r => if p l then drop_while p r else ls
  end.

(** [while validated_lines and not validated_lines[-1].strip(): pop()] *)
Definition drop_trailing_blank (ls : list string) : list string :=
  rev (drop_while blank (rev ls)).

Definition validate_yaml (yaml_content : string) : string :=
  let ls := split_on "010"%char (strip yaml_content) in
  lines (drop_trailing_blank (validate_lines false 0 ls)).

Definition build_yaml_content (proxies : list ProxyInfo) (timestamp : string) : string :=
  match proxies with
  | [] => generate_empty_yaml
  | _ =>
      let names := map safe_name proxies in
      let proxies_yaml :=
        lines (flat_map (fun p => proxy_lines (safe_name p) p) proxies) in
      let proxy_names_yaml := lines (map (fun n => "      - " ++ quoted n) names) in
      validate_yaml (yaml_template timestamp (length proxies) proxies_yaml proxy_names_yaml)
  end.

(** [generate_clash_yaml]: a node whose parsing raises is skipped. *)
Definition parsed_proxies (cfg : Config) (nodes : list string) : list ProxyInfo :=
  flat_map (fun node => match parse_vless_url cfg node with
                        | Some p => [p]
                        | None => []
                        end) nodes.

Definition generate_clash_yaml (cfg : Config) (timestamp : string)
    (nodes : list string) : string :=
  match nodes with
  | [] => generate_empty_yaml
  | _ => build_yaml_content (parsed_proxies cfg nodes) timestamp
  end.



(** Reading names back from a rendered document, as a YAML reader reads
    these lines: a double-quoted scalar loses its quotes, and a backslash
    escape gives the character after it; a plain scalar is its stripped
    text. *)
Fixpoint unescape_dq (s : string) : string :=
  match s with
  | EmptyString => EmptyString
  | String c r =>
      if Ascii.eqb c "092"%char then
        match r with
        | String d r' => String d (unescape_dq r')
        | EmptyString => String c EmptyString
        end
      else String c (unescape_dq r)
  end.

Definition yaml_scalar (v : string) : string :=
  let n := String.length v in
  if (2 <=? n)%nat && starts_with dq v && String.eqb (substring (n - 1) 1 v) dq
  then unescape_dq (substring 1 (n - 2) v)
  else v.

Fixpoint lines_after (hdr : string) (ls : list string) : list string :=
  match ls with
  | [] => []
  | l :: r => if String.eqb l hdr then r else lines_after hdr r
  end.

Fixpoint lines_before (stop : string) (ls : list string) : list string :=
  match ls with
  | [] => []
  | l :: r => if String.eqb l stop then [] else l :: lines_before stop r
  end.

Definition name_prefix : string := "  - name: ".
Definition member_prefix : string := "      - ".

Definition after_prefix (pre l : string) : string :=
  yaml_scalar (strip (substring (String.length pre)
                                (String.length l - String.length pre) l)).

(** The names of the top-level [proxies] list. *)
Definition doc_proxy_names (doc : string) : list string :=
  let ls := lines_before "proxy-groups:" (lines_after "proxies:" (split_on "010"%char doc)) in
  flat_map (fun l => if starts_with name_prefix l then [after_prefix name_prefix l]
                     else []) ls.

Definition selection_group (name : string) : bool :=
  String.eqb name "🚀 节点选择" || String.eqb name "♻️ 自动选择".

Fixpoint members_loop (current : string) (ls : list string) : list string :=
  match ls with
  | [] => []
  | l :: r =>
      if starts_with name_prefix l then members_loop (after_prefix name_prefix l) r
      else if starts_with member_prefix l && selection_group current
      then after_prefix member_prefix l :: members_loop current r
      else members_loop current r
  end.

(** The members of the manual-select and auto-select groups. *)
Definition doc_group_members (doc : string) : list string :=
  members_loop EmptyString
    (lines_before "rules:" (lines_after "proxy-groups:" (split_on "010"%char doc))).

(** The conditions under which [_parse_vless_url] does not raise: a
    ["vless://"] scheme, an ['@'] after it, and a [':'] in the host:port
    part before the first ['?']. *)
Definition link_shape_ok (url : string) : bool :=
  starts_with "vless://" url &&
  match split_once "@" (substring 8 (String.length url - 8) url) with
  | None => false
  | Some (_, rest) =>
      contains ":" (match split_once "?" rest with
                    | Some (a, _) => a
                    | None => rest
                    end)
  end.

(** The reason a link fails [link_shape_ok]. *)
Definition link_error (url : string) : string :=
  if negb (starts_with "vless://" url) then "不是有效的Vless链接"
  else match split_once "@" (substring 8 (String.length url - 8) url) with
       | None => "无效的Vless格式"
       | Some _ => "缺少端口号"
       end.



(* ------------------------------------------------------------------ *)
(** ** Age filter (src/utils/node_manager.py) *)

(** The calendar of Python's [datetime]: proleptic Gregorian, years
    1-9999, ordinal 1 for 0001-01-01. *)
Definition is_leap (y : Z) : bool :=
  (Z.eqb (y mod 4) 0 && negb (Z.eqb (y mod 100) 0)) || Z.eqb (y mod 400) 0.

Definition month_lengths (y : Z) : list Z :=
  [31; if is_leap y then 29 else 28; 31; 30; 31; 30; 31; 31; 30; 31; 30; 31]%Z.

Definition days_in_month (y m : Z) : Z := nth (Z.to_nat (m - 1)) (month_lengths y) 0%Z.

Definition days_before_month (y m : Z) : Z :=
  fold_right Z.add 0%Z (firstn (Z.to_nat (m - 1)) (month_lengths y)).

Definition days_before_year (y : Z) : Z :=
  let y1 := (y - 1)%Z in (y1 * 365 + y1 / 4 - y1 / 100 + y1 / 400)%Z.

(** [datetime(year, month, day)] raises [ValueError] unless this holds. *)
Definition valid_date (y m d : Z) : bool :=
  (1 <=? y)%Z && (y <=? 9999)%Z && (1 <=? m)%Z && (m <=? 12)%Z &&
  (1 <=? d)%Z && (d <=? days_in_month y m)%Z.

Definition toordinal (y m d : Z) : Z :=
  (days_before_year y + days_before_month y m + d)%Z.

Definition max_ordinal : Z := toordinal 9999 12 31.

Definition usec_per_day : Z := 86400000000%Z.

(** [datetime.now()]: a date and the time of day in microseconds. The
    source calls [datetime.now()] several times; one instant is used. *)
Record DateTime := {
  dt_year : Z;
  dt_month : Z;
  dt_day : Z;
  dt_usec : Z
}.

Definition date_instant (y m d : Z) : Z := (toordinal y m d * usec_per_day)%Z.

(** [datetime.now() - timedelta(days=MAX_DAYS_TO_KEEP)], in microseconds
    since the ordinal origin; [None] where Python raises [OverflowError]. *)
Definition cutoff_instant (now : DateTime) (days : Z) : option Z :=
  let o := (toordinal (dt_year now) (dt_month now) (dt_day now) - days)%Z in
  if (1 <=? o)%Z && (o <=? max_ordinal)%Z then Some (o * usec_per_day + dt_usec now)%Z
  else None.

(** Exactly [n] ASCII digits, as [\d{n}], with their value. *)
Fixpoint take_digits (n : nat) (acc : Z) (s : string) : option (Z * string) :=
  match n with
  | O => Some (acc, s)
  | S k =>
      match s with
      | String c r => if is_digit c then take_digits k (acc * 10 + digit_value c)%Z r
                      else None
      | EmptyString => None
      end
  end.

Fixpoint strip_prefix (pre s : string) : option string :=
  match pre, s with
  | EmptyString, _ => Some s
  | String c p, String d r => if Ascii.eqb c d then strip_prefix p r else None
  | String _ _, EmptyString => None
  end.

(** A match of [自选(\d{2})(\d{2})] at the start of [s]. *)
Definition match_mmdd (s : string) : option (Z * Z) :=
  match strip_prefix "自选" s with
  | Some r =>
      match take_digits 2 0 r with
      | Some (month, r') =>
          match take_digits 2 0 r' with
          | Some (day, _) => Some (month, day)
          | None => None
          end
      | None => None
      end
  | None => None
  end.

Definition is_date_sep (c : ascii) : bool := Ascii.eqb c "-" || Ascii.eqb c "_".

(** A match of [(\d{4})[-_](\d{2})[-_](\d{2})] at the start of [s]. *)
Definition match_ymd (s : string) : option (Z * Z * Z) :=
  match take_digits 4 0 s with
  | Some (y, String c1 r1) =>
      if is_date_sep c1 then
        match take_digits 2 0 r1 with
        | Some (m, String c2 r2) =>
            if is_date_sep c2 then
              match take_digits 2 0 r2 with
              | Some (d, _) => Some (y, m, d)
              | None => None
              end
            else None
        | _ => None
        end
      else None
  | _ => None
  end.

(** [re.search]: the leftmost match. *)
Fixpoint search {A} (m : string -> option A) (s : string) : option A :=
  match m s with
  | Some x => Some x
  | None => match s with
            | EmptyString => None
            | String _ r => search m r
            end
  end.

(** [_extract_date_from_node]: a date [datetime] would raise on falls
    through to the next pattern, then to [None]. *)
Definition extract_date_from_node (now : DateTime) (node : string) : option (Z * Z * Z) :=
  let first :=
    match search match_mmdd node with
    | Some (month, day) =>
        let year := if (month >? dt_month now)%Z then (dt_year now - 1)%Z
                    else dt_year now in
        if valid_date year month day then Some (year, month, day) else None
    | None => None
    end in
  match first with
  | Some d => Some d
  | None =>
      match search match_ymd node with
      | Some (y, m, d) => if valid_date y m d then Some (y, m, d) else None
      | None => None
      end
  end.

(** [filter_nodes_by_age]; [None] where the cutoff overflows. *)
Definition filter_nodes_by_age (cfg : Config) (now : DateTime) (nodes : list string)
    : option (list string) :=
  if negb (AUTO_DELETE_OLD_NODES cfg) then Some nodes else
  match cutoff_instant now (MAX_DAYS_TO_KEEP cfg) with
  | None => None
  | Some cutoff =>
      Some (filter (fun node =>
              match extract_date_from_node now node with
              | Some (y, m, d) => (cutoff <=? date_instant y m d)%Z
              | None => true
              end) nodes)
  end.

(** The values of src/simple_main.py's CONFIG, whose label prefix is the
    one the age filter looks for; its missing flags take config.py's
    defaults. *)
Definition simple_main_config : Config := {|
  UUID := "471a8e64-7b21-4703-b1d1-45a221098459";
  HOST := "knny.dpdns.org";
  SNI := "knny.dpdns.org";
  FINGERPRINT := "chrome";
  DEFAULT_PORT := 443;
  FORCE_PORT_443 := true;
  REMARKS_PREFIX := "自选";
  CUSTOM_PATH := "/?ed=2048";
  MAX_DAYS_TO_KEEP := 10;
  AUTO_DELETE_OLD_NODES := true
|}.

(* ------------------------------------------------------------------ *)
(** ** Upload (src/main.py, VlessAutomation.upload_file) *)

Definition b64_alphabet : string :=
  "ABCDEFGHIJKLMNOPQRSTUVWXYZabcdefghijklmnopqrstuvwxyz0123456789+/".

Definition b64_char (i : Z) : ascii :=
  match String.get (Z.to_nat (Z.land i 63)) b64_alphabet with
  | Some c => c
  | None => "A"%char
  end.

Definition byte_Z (c : ascii) : Z := Z.of_nat (nat_of_ascii c).

(** [base64.b64encode] on the UTF-8 bytes of a string. *)
Fixpoint b64encode (s : string) : string :=
  match s with
  | String a (String b (String c r)) =>
      let n := Z.lor (Z.shiftl (byte_Z a) 16) (Z.lor (Z.shiftl (byte_Z b) 8) (byte_Z c)) in
      String (b64_char (Z.shiftr n 18)) (String (b64_char (Z.shiftr n 12))
        (String (b64_char (Z.shiftr n 6)) (String (b64_char n) (b64encode r))))
  | String a (String b EmptyString) =>
      let n := Z.lor (Z.shiftl (byte_Z a) 16) (Z.shiftl (byte_Z b) 8) in
      String (b64_char (Z.shiftr n 18)) (String (b64_char (Z.shiftr n 12))
        (String (b64_char (Z.shiftr n 6)) "="))
  | String a EmptyString =>
      let n := Z.shiftl (byte_Z a) 16 in
      String (b64_char (Z.shiftr n 18)) (String (b64_char (Z.shiftr n 12)) "==")
  | EmptyString => EmptyString
  end.

Definition newline : ascii := ascii_of_nat 10.

(** The contents API returns the blob base64-encoded with a newline after
    every [n] characters and at the end; [k] counts what is left of the
    current line. *)
Fixpoint wrap_at (n k : nat) (s : string) : string :=
  match s with
  | EmptyString => String newline EmptyString
  | String c r =>
      match k with
      | O => String newline (String c (wrap_at n (n - 1) r))
      | S k' => String c (wrap_at n k' r)
      end
  end.

Definition api_content (blob : string) : string := wrap_at 60 60 (b64encode blob).

(** [.replace("\n", "")] *)
Definition remove_newlines (s : string) : string :=
  filter_chars (fun c => negb (Ascii.eqb c newline)) s.

(** The repository: each path holds its revision token (SHA) and its
    bytes. *)
Definition Store := list (string * (string * string)).


(** The answer to a GET of the contents API: [GetRaised] when
    [session.get] or [response.json()] raises (timeout, connection error,
    a body that is not JSON), otherwise the status code and the [sha] and
    [content] fields of the JSON body, if present. *)
Inductive GetAnswer :=
| GetRaised
| GetResponse (status : Z) (sha content : option string).

Definition field_or_empty (o : option string) : string :=
  match o with Some v => v | None => EmptyString end.

(** GitHub's answer for a path of the repository: 200 with the blob's SHA
    and its wrapped base64 text, 404 for a missing path. *)
Definition github_get (st : Store) (file_path : string) : GetAnswer :=
  match dict_get st file_path with
  | Some (sha, blob) => GetResponse 200 (Some sha) (Some (api_content blob))
  | None => GetResponse 404 None None
  end.

(** [_get_file_info] on the answer to its GET: [None] unless the status is
    200, as when the request raises. *)
Definition get_file_info (ans : GetAnswer) : option (string * string) :=
  match ans with
  | GetResponse status sha content =>
      if Z.eqb status 200
      then Some (field_or_empty sha, remove_newlines (field_or_empty content))
      else None
  | GetRaised => None
  end.







(* ------------------------------------------------------------------ *)
(** ** Row extraction (src/utils/csv_processor.py) *)













(* ------------------------------------------------------------------ *)
(** ** The whole CSV parse (src/utils/csv_processor.py, parse_csv and
       _extract_with_regex) *)
























(* ------------------------------------------------------------------ *)
(** ** Download (src/main.py, VlessAutomation.download_file) *)

(** [binascii]'s [table_a2b_base64]: the index of a character in the
    base64 alphabet, [None] for the characters outside it. *)
Definition b64_index (c : ascii) : option Z :=
  let n := Z.of_nat (nat_of_ascii c) in
  (if (65 <=? n) && (n <=? 90) then Some (n - 65)
   else if (97 <=? n) && (n <=? 122) then Some (n - 71)
   else if (48 <=? n) && (n <=? 57) then Some (n + 4)
   else if n =? 43 then Some 62
   else if n =? 47 then Some 63
   else None)%Z.

(** A byte written through [unsigned char *bin_data]. *)
Definition out_byte (x : Z) : ascii := ascii_of_nat (Z.to_nat (Z.land x 255)).

(** [binascii.a2b_base64(s, strict_mode=False)] as CPython implements it:
    characters outside the alphabet are skipped; a pad ['='] counts only
    once two data characters of a quad are in, and ends the input when
    the pads complete the quad; at the end a quad holding one data
    character, or two or three without their padding, is an error
    ([None]). *)
Fixpoint a2b_base64 (quad_pos : nat) (leftchar pads : Z) (s : string) : option string :=
  match s with
  | EmptyString =>
      match quad_pos with O => Some EmptyString | _ => None end
  | String this_ch r =>
      if Ascii.eqb this_ch "=" then
        if (2 <=? quad_pos)%nat then
          if (4 <=? Z.of_nat quad_pos + (pads + 1))%Z then Some EmptyString
          else a2b_base64 quad_pos leftchar (pads + 1) r
        else a2b_base64 quad_pos leftchar pads r
      else
        match b64_index this_ch with
        | None => a2b_base64 quad_pos leftchar pads r
        | Some v =>
            match quad_pos with
            | O => a2b_base64 1 v 0 r
            | 1 => option_map (String (out_byte (Z.lor (Z.shiftl leftchar 2) (Z.shiftr v 4))))
                     (a2b_base64 2 (Z.land v 15) 0 r)
            | 2 => option_map (String (out_byte (Z.lor (Z.shiftl leftchar 4) (Z.shiftr v 2))))
                     (a2b_base64 3 (Z.land v 3) 0 r)
            | _ => option_map (String (out_byte (Z.lor (Z.shiftl leftchar 6) v)))
                     (a2b_base64 0 0 0 r)
            end
        end
  end.

(** [base64.b64decode(s)]: a [str] with a non-ASCII character raises
    [ValueError]; otherwise [a2b_base64] in non-strict mode. *)
Definition b64decode (s : string) : option string :=
  if all_chars (fun c => (nat_of_ascii c <? 128)%nat) s then a2b_base64 0 0 0 s else None.

Definition byte_in (c : ascii) (lo hi : nat) : bool :=
  let n := nat_of_ascii c in (lo <=? n)%nat && (n <=? hi)%nat.

Definition cont_byte (c : ascii) : bool := byte_in c 128 191.

(** [bytes.decode('utf-8')] succeeds: the bytes are well-formed UTF-8
    (no overlong form, no surrogate, nothing above U+10FFFF). *)
Fixpoint utf8_valid (s : string) : bool :=
  match s with
  | EmptyString => true
  | String a r =>
      if (nat_of_ascii a <? 128)%nat then utf8_valid r
      else if byte_in a 194 223 then
        match r with
        | String b r1 => cont_byte b && utf8_valid r1
        | _ => false
        end
      else if byte_in a 224 239 then
        match r with
        | String b (String c r2) =>
            (if byte_in a 224 224 then byte_in b 160 191
             else if byte_in a 237 237 then byte_in b 128 159
             else cont_byte b) && cont_byte c && utf8_valid r2
        | _ => false
        end
      else if byte_in a 240 244 then
        match r with
        | String b (String c (String d r3)) =>
            (if byte_in a 240 240 then byte_in b 144 191
             else if byte_in a 244 244 then byte_in b 128 143
             else cont_byte b) && cont_byte c && cont_byte d && utf8_valid r3
        | _ => false
        end
      else false
  end.

(** [download_file] on the answer to its GET: [None] unless the status is
    200, as when the request raises; the [content] field is the wrapped
    base64 text; a decoding error is caught and gives [None]. *)
Definition download_file (ans : GetAnswer) : option string :=
  match ans with
  | GetRaised => None
  | GetResponse status _ content_field =>
      if negb (Z.eqb status 200) then None else
      let content := field_or_empty content_field in
      match content with
      | EmptyString => Some EmptyString
      | String _ _ =>
          match b64decode (remove_newlines content) with
          | Some decoded => if utf8_valid decoded then Some decoded else None
          | None => None
          end
      end
  end.


(* ------------------------------------------------------------------ *)
(** ** Reading the subscription back (src/main.py, VlessAutomation.run) *)

(** [base64.b64decode(x).decode('utf-8')]; [None] where it raises. *)
Definition b64decode_utf8 (x : string) : option string :=
  match b64decode x with
  | Some decoded => if utf8_valid decoded then Some decoded else None
  | None => None
  end.

(** [[line.strip() for line in t.split('\n') if line.strip()]] *)
Definition stripped_lines (t : string) : list string :=
  flat_map (fun line => match py_strip line with
                        | EmptyString => []
                        | s => [s]
                        end) (split_on "010"%char t).

(** Step 4 of [run]: the remote nodes read from what [download_file]
    returned for the subscription file; a double base64 decode is tried
    first, then a single one, then the plain text. *)
Definition remote_nodes_of (remote_content : option string) : list string :=
  match remote_content with
  | Some (String _ _ as rc) =>
      let candidates :=
        match b64decode_utf8 rc with
        | Some first_decode =>
            match b64decode_utf8 first_decode with
            | Some second_decode => stripped_lines second_decode
            | None =>
                match b64decode_utf8 rc with
                | Some single_decode => stripped_lines single_decode
                | None => stripped_lines rc
                end
            end
        | None =>
            match b64decode_utf8 rc with
            | Some single_decode => stripped_lines single_decode
            | None => stripped_lines rc
            end
        end in
      filter (starts_with "vless://") candidates
  | _ => []
  end.

(* DEFINITIONS-END *)

(* ================================================================== *)
(** * Proofs *)

(* ------------------------------------------------------------------ *)
(** ** Merging *)

Example key_ex1 :
  extract_ip_port_key "vless://u@1.2.3.4:443?type=ws#a" = Some "1.2.3.4:443".
Proof. reflexivity. Qed.

Example merge_ex1 :
  merge_nodes ["vless://a@1.2.3.4:443#x"; "junk"]
              ["vless://b@1.2.3.4:443#y"; "vless://c@5.6.7.8:80"; "junk"]
  = ["vless://a@1.2.3.4:443#x"; "junk"; "vless://c@5.6.7.8:80"].
Proof. reflexivity. Qed.

Lemma mem_false_iff (x : string) (xs : list string) :
  mem x xs = false <-> ~ In x xs.
Proof.
  unfold mem. induction xs as [|y ys IH]; simpl.
  - tauto.
  - rewrite orb_false_iff, IH, String.eqb_neq. intuition congruence.
Qed.





Lemma span_first (p : ascii -> bool) s c a b :
  span p s = (String c a, b) -> p c = true.
Proof.
  destruct s as [|d r]; simpl; [discriminate|].
  destruct (p d) eqn:Hp; [|discriminate].
  destruct (span p r). intros H. now inversion H; subst.
Qed.

(** A key always starts with a digit or a dot. *)
Lemma key_head (node k : string) :
  extract_ip_port_key node = Some k ->
  exists c r, k = String c r /\ is_digit_or_dot c = true.
Proof.
  induction node as [|d r IH]; simpl; [discriminate|].
  destruct (Ascii.eqb d "@"); [|exact IH].
  destruct (match_after_at r) as [k'|] eqn:Hm; [|exact IH].
  intros Hk. inversion Hk; subst k'. clear Hk.
  unfold match_after_at in Hm.
  destruct (span is_digit_or_dot r) as [host t] eqn:Hsp.
  destruct host as [|c0 h0]; [discriminate|].
  destruct t as [|c1 t']; [discriminate|].
  destruct (Ascii.eqb c1 ":"); [|discriminate].
  destruct (span is_digit t') as [port rest].
  destruct port; [discriminate|].
  inversion Hm; subst. eexists _, _. split; [reflexivity|].
  exact (span_first _ _ _ _ _ Hsp).
Qed.

(** Every key the regex search gives starts with a digit or a dot, so
    never with ["vless://"]. *)
Lemma extract_key_not_vless (n k : string) :
  extract_ip_port_key n = Some k -> starts_with "vless://" k = false.
Proof.
  intros Hk. apply key_head in Hk as [c [r [-> Hc]]]. cbn [starts_with].
  destruct (Ascii.eqb_spec "v" c) as [<-|]; [discriminate Hc | reflexivity].
Qed.

Lemma merge_loop_by_regex (seen nodes : list string) :
  merge_loop_by extract_ip_port_key seen nodes = merge_loop seen nodes.
Proof.
  revert seen. induction nodes as [|h t IH]; intros seen; [reflexivity|].
  cbn [merge_loop_by merge_loop].
  destruct (extract_ip_port_key h) as [k|];
    [destruct (mem k seen) | destruct (mem h seen)]; rewrite ?IH; reflexivity.
Qed.

Lemma merge_nodes_by_regex (local_nodes remote_nodes : list string) :
  merge_nodes_by extract_ip_port_key local_nodes remote_nodes =
  merge_nodes local_nodes remote_nodes.
Proof. apply merge_loop_by_regex. Qed.

Lemma existsb_ext_in {A} (f g : A -> bool) (l : list A) :
  (forall y, In y l -> f y = g y) -> existsb f l = existsb g l.
Proof.
  induction l as [|h t IH]; intros H; [reflexivity|]. cbn.
  rewrite (H h (or_introl eq_refl)), IH; [reflexivity|].
  intros y Hy. apply H. now right.
Qed.

Lemma nodup_map_eq {A B} (f : A -> B) (l : list A) x y :
  NoDup (map f l) -> In x l -> In y l -> f x = f y -> x = y.
Proof.
  induction l as [|h t IH]; [intros _ []|].
  cbn [map]. intros Hnd Hx Hy E. inversion Hnd as [|? ? Hn Hnd']; subst.
  destruct Hx as [<-|Hx], Hy as [<-|Hy]; auto.
  - exfalso. apply Hn. rewrite E. now apply in_map.
  - exfalso. apply Hn. rewrite <- E. now apply in_map.
Qed.

Lemma In_firstn {A} (n : nat) (l : list A) x : In x (firstn n l) -> In x l.
Proof.
  intros H. rewrite <- (firstn_skipn n l). apply in_or_app. now left.
Qed.

Section MergeBy.

Variable key : string -> option string.

Lemma merge_loop_by_as_id (seen nodes : list string) :
  merge_loop_by key seen nodes =
  match nodes with
  | [] => []
  | node :: rest =>
      if mem (node_id_by key node) seen then merge_loop_by key seen rest
      else node :: merge_loop_by key (node_id_by key node :: seen) rest
  end.
Proof.
  destruct nodes as [|node rest]; [reflexivity|].
  simpl. unfold node_id_by. destruct (key node); reflexivity.
Qed.

Lemma merge_loop_by_nodup (seen nodes : list string) :
  NoDup (map (node_id_by key) (merge_loop_by key seen nodes)) /\
  (forall y, In y (merge_loop_by key seen nodes) -> ~ In (node_id_by key y) seen).
Proof.
  revert seen. induction nodes as [|h t IH]; intros seen.
  - split; [constructor | intros y []].
  - rewrite merge_loop_by_as_id.
    destruct (mem (node_id_by key h) seen) eqn:Hm; [apply IH|].
    destruct (IH (node_id_by key h :: seen)) as [Hnd Hfr]. split.
    + simpl. constructor; [|exact Hnd].
      intros Hin. apply in_map_iff in Hin as [y [Hy Hin]].
      apply (Hfr y Hin). rewrite Hy. now left.
    + intros y [<-|Hin].
      * now apply mem_false_iff.
      * intros Hs. apply (Hfr y Hin). now right.
Qed.

Lemma merge_loop_by_first_survives (seen a b : list string) x :
  In x a -> ~ In (node_id_by key x) seen ->
  exists y, In y a /\ node_id_by key y = node_id_by key x /\
            In y (merge_loop_by key seen (app a b)).
Proof.
  revert seen. induction a as [|h t IH]; intros seen Hx Hs; [destruct Hx|].
  simpl app. rewrite merge_loop_by_as_id.
  destruct (String.eqb_spec (node_id_by key h) (node_id_by key x)) as [Heq|Hne].
  - exists h. rewrite <- Heq in Hs. apply mem_false_iff in Hs.
    rewrite Hs. split; [now left|]. split; [exact Heq | now left].
  - destruct Hx as [<-|Hx]; [congruence|].
    destruct (mem (node_id_by key h) seen).
    + destruct (IH seen Hx Hs) as [y [Hy1 [Hy2 Hy3]]].
      exists y. repeat split; [now right | exact Hy2 | exact Hy3].
    + assert (Hs' : ~ In (node_id_by key x) (node_id_by key h :: seen))
        by (intros [H|H]; [congruence | exact (Hs H)]).
      destruct (IH _ Hx Hs') as [y [Hy1 [Hy2 Hy3]]].
      exists y. repeat split; [now right | exact Hy2 | now right].
Qed.

Lemma existsb_id_mem (p seen : list string) (s : string) :
  (forall t, In t seen <-> exists y, In y p /\ node_id_by key y = t) ->
  existsb (fun y => String.eqb (node_id_by key y) s) p = mem s seen.
Proof.
  intros Hinv. apply eq_true_iff_eq. rewrite existsb_exists. unfold mem.
  rewrite existsb_exists. split.
  - intros [y [Hy E]]. apply String.eqb_eq in E. exists s.
    split; [apply Hinv; now exists y | apply String.eqb_refl].
  - intros [t [Ht E]]. apply String.eqb_eq in E. subst t.
    apply Hinv in Ht as [y [Hy E]]. exists y. split; [exact Hy|].
    apply String.eqb_eq, E.
Qed.

(** The loop keeps exactly the nodes whose identity no earlier node has,
    [seen] holding the identities of the nodes [p] already read. *)
Lemma merge_loop_by_spec (p l seen : list string) :
  (forall t, In t seen <-> exists y, In y p /\ node_id_by key y = t) ->
  merge_loop_by key seen l =
  concat (map (first_pick (fun y x => String.eqb (node_id_by key y) (node_id_by key x))
                          (app p l))
              (seq (length p) (length l))).
Proof.
  revert p seen. induction l as [|x r IH]; intros p seen Hinv; [reflexivity|].
  rewrite merge_loop_by_as_id. cbn [length seq map concat].
  assert (Hpick : first_pick (fun y x => String.eqb (node_id_by key y) (node_id_by key x))
                    (app p (x :: r)) (length p) =
                  if mem (node_id_by key x) seen then [] else [x]).
  { unfold first_pick. rewrite nth_error_app2, Nat.sub_diag by lia. cbn [nth_error].
    rewrite firstn_app, firstn_all, Nat.sub_diag. cbn [firstn]. rewrite app_nil_r.
    now rewrite (existsb_id_mem p seen (node_id_by key x) Hinv). }
  rewrite Hpick.
  assert (Hl : app p (x :: r) = app (app p [x]) r) by now rewrite <- app_assoc.
  assert (Hn : S (length p) = length (app p [x]))
    by (rewrite length_app; cbn; lia).
  rewrite Hl, Hn.
  destruct (mem (node_id_by key x) seen) eqn:Hm; cbn [app].
  - apply IH. intros t. rewrite Hinv. split.
    + intros [y [Hy E]]. exists y. split; [apply in_or_app; now left | exact E].
    + intros [y [Hy E]]. apply in_app_or in Hy as [Hy|[<-|[]]]; [now exists y|].
      apply Hinv. unfold mem in Hm. apply existsb_exists in Hm as [t' [Ht' E']].
      apply String.eqb_eq in E'. congruence.
  - f_equal. apply IH. intros t. cbn [In]. rewrite Hinv. split.
    + intros [E|[y [Hy E]]].
      * exists x. split; [apply in_or_app; right; now left | exact E].
      * exists y. split; [apply in_or_app; now left | exact E].
    + intros [y [Hy E]]. apply in_app_or in Hy as [Hy|[<-|[]]].
      * right. now exists y.
      * now left.
Qed.

Lemma keys_of_nodup (l : list string) :
  NoDup (map (node_id_by key) l) -> NoDup (keys_of key l).
Proof.
  induction l as [|h t IH]; intros Hnd; [constructor|].
  cbn [map] in Hnd. inversion Hnd as [|? ? Hn Hnd']; subst.
  unfold keys_of. cbn [flat_map]. fold (keys_of key t).
  destruct (key h) as [k|] eqn:Eh; [|exact (IH Hnd')].
  cbn [app]. constructor; [|exact (IH Hnd')].
  intros Hk. unfold keys_of in Hk. apply in_flat_map in Hk as [y [Hy Hk]].
  destruct (key y) as [k'|] eqn:Ey; [|destruct Hk].
  destruct Hk as [<-|[]]. apply Hn. replace (node_id_by key h) with (node_id_by key y).
  - now apply in_map.
  - unfold node_id_by. now rewrite Ey, Eh.
Qed.

(** On [vless://] texts, with keys that never start with ["vless://"],
    the single identity of the loop agrees with the spec's two kinds. *)
Lemma node_id_by_spec (x y : string) :
  (forall n k, key n = Some k -> starts_with "vless://" k = false) ->
  starts_with "vless://" x = true -> starts_with "vless://" y = true ->
  String.eqb (node_id_by key y) (node_id_by key x) =
  identity_eqb (spec_identity key y) (spec_identity key x).
Proof.
  intros Hkey Hx Hy. unfold node_id_by, spec_identity, identity_eqb.
  destruct (key y) as [ky|] eqn:Ey, (key x) as [kx|] eqn:Ex; try reflexivity.
  - apply String.eqb_neq. intros <-. rewrite (Hkey y ky Ey) in Hx. discriminate.
  - apply String.eqb_neq. intros ->. rewrite (Hkey x kx Ex) in Hy. discriminate.
Qed.

Lemma node_id_by_keyed (x y : string) (k : string) :
  (forall n k, key n = Some k -> starts_with "vless://" k = false) ->
  starts_with "vless://" y = true ->
  key x = Some k -> node_id_by key y = node_id_by key x -> key y = Some k.
Proof.
  intros Hkey Hy Ek. unfold node_id_by at 1 2. rewrite Ek.
  destruct (key y) as [ky|] eqn:Ey; intros E; [now subst|].
  subst y. rewrite (Hkey x k Ek) in Hy. discriminate.
Qed.

Lemma node_id_by_keyless (x y : string) :
  (forall n k, key n = Some k -> starts_with "vless://" k = false) ->
  starts_with "vless://" x = true ->
  key x = None -> node_id_by key y = node_id_by key x -> y = x.
Proof.
  intros Hkey Hx Ek. unfold node_id_by at 1 2. rewrite Ek.
  destruct (key y) as [ky|] eqn:Ey; intros E; [|exact E].
  subst ky. rewrite (Hkey y x Ey) in Hx. discriminate.
Qed.

End MergeBy.

(* ------------------------------------------------------------------ *)
(** ** The claims on merging *)

(** C1: on [vless://] nodes (the only ones [run] passes: the links it
    builds and the remote lines it filters on [startswith('vless://')]),
    and for any key search whose keys never start with ["vless://"],
    [merge_nodes] keeps no two nodes with the same key; a key present in
    the new nodes survives through a new node, the only output node with
    that key; and the output is the concatenation deduplicated by the
    spec's identity (key, or full text), first occurrence kept. *)
Theorem merge_nodes_first_key_wins (key : string -> option string)
    (new_nodes remote_nodes : list string) :
  (forall n k, key n = Some k -> starts_with "vless://" k = false) ->
  Forall (fun n => starts_with "vless://" n = true) (app new_nodes remote_nodes) ->
  NoDup (keys_of key (merge_nodes_by key new_nodes remote_nodes)) /\
  (forall x k, In x new_nodes -> key x = Some k ->
     exists y, In y new_nodes /\ key y = Some k /\
               In y (merge_nodes_by key new_nodes remote_nodes) /\
               forall z, In z (merge_nodes_by key new_nodes remote_nodes) ->
                         key z = Some k -> z = y) /\
  merge_nodes_by key new_nodes remote_nodes = keep_first key (app new_nodes remote_nodes).
Proof.
  intros Hkey Hall. rewrite Forall_forall in Hall. unfold merge_nodes_by.
  destruct (merge_loop_by_nodup key [] (app new_nodes remote_nodes)) as [Hnd _].
  split; [exact (keys_of_nodup key _ Hnd)|]. split.
  - intros x k Hx Ek.
    destruct (merge_loop_by_first_survives key [] new_nodes remote_nodes x Hx (fun H => H))
      as [y [Hy1 [Hy2 Hy3]]].
    assert (Eky : key y = Some k).
    { apply (node_id_by_keyed key x y k Hkey); [|exact Ek | exact Hy2].
      apply Hall, in_or_app. now left. }
    exists y. split; [exact Hy1|]. split; [exact Eky|]. split; [exact Hy3|].
    intros z Hz Ekz. apply (nodup_map_eq (node_id_by key) _ z y Hnd Hz Hy3).
    unfold node_id_by. now rewrite Ekz, Eky.
  - rewrite (merge_loop_by_spec key [] _ [] (fun t => conj (fun H : In t [] => match H with end)
               (fun H => match H with ex_intro _ y (conj Hy _) => Hy end))).
    unfold keep_first. cbn [length app]. f_equal. apply map_ext_in. intros i _.
    unfold first_pick. destruct (nth_error (app new_nodes remote_nodes) i) as [x|] eqn:Ex;
      [|reflexivity].
    apply nth_error_In in Ex.
    rewrite (existsb_ext_in _ (fun y => identity_eqb (spec_identity key y) (spec_identity key x)));
      [reflexivity|].
    intros y Hy. apply In_firstn in Hy.
    apply node_id_by_spec; [exact Hkey | apply Hall, Ex | apply Hall, Hy].
Qed.

(** The instance of C1 at the regex key search of [merge_nodes]. *)
Lemma merge_nodes_first_key_wins_witness :
  let a := ["vless://a@1.2.3.4:443#x"; "vless://q"] in
  let b := ["vless://b@1.2.3.4:443#y"; "vless://q"; "vless://c@5.6.7.8:80"] in
  (NoDup (keys_of extract_ip_port_key (merge_nodes_by extract_ip_port_key a b)) /\
  (forall x k, In x a -> extract_ip_port_key x = Some k ->
     exists y, In y a /\ extract_ip_port_key y = Some k /\
               In y (merge_nodes_by extract_ip_port_key a b) /\
               forall z, In z (merge_nodes_by extract_ip_port_key a b) ->
                         extract_ip_port_key z = Some k -> z = y) /\
  merge_nodes_by extract_ip_port_key a b = keep_first extract_ip_port_key (app a b)) /\
  merge_nodes a b = ["vless://a@1.2.3.4:443#x"; "vless://q"; "vless://c@5.6.7.8:80"].
Proof.
  intros a b. split.
  - apply (merge_nodes_first_key_wins extract_ip_port_key a b).
    + exact extract_key_not_vless.
    + repeat constructor.
  - reflexivity.
Defined.

(** C2: on [vless://] nodes, and for any key search whose keys never
    start with ["vless://"], a node without a key is kept by
    [merge_nodes], exactly once, whatever the other nodes are. *)
Theorem merge_nodes_keeps_keyless (key : string -> option string)
    (new_nodes remote_nodes : list string) (x : string) :
  (forall n k, key n = Some k -> starts_with "vless://" k = false) ->
  Forall (fun n => starts_with "vless://" n = true) (app new_nodes remote_nodes) ->
  In x (app new_nodes remote_nodes) -> key x = None ->
  count_occ string_dec (merge_nodes_by key new_nodes remote_nodes) x = 1%nat.
Proof.
  intros Hkey Hall Hx Ek. rewrite Forall_forall in Hall. unfold merge_nodes_by.
  destruct (merge_loop_by_nodup key [] (app new_nodes remote_nodes)) as [Hnd _].
  destruct (merge_loop_by_first_survives key [] (app new_nodes remote_nodes) [] x Hx
              (fun H => H)) as [y [Hy1 [Hy2 Hy3]]].
  rewrite app_nil_r in Hy3.
  pose proof (node_id_by_keyless key x y Hkey (Hall x Hx) Ek Hy2) as ->.
  apply NoDup_map_inv in Hnd. now apply (proj1 (NoDup_count_occ' string_dec _)).
Qed.

(** The instance of C2 at the regex key search of [merge_nodes]. *)
Lemma merge_nodes_keeps_keyless_witness :
  let a := ["vless://q"; "vless://u@1.2.3.4:443"] in
  let b := ["vless://q"; "vless://v@1.2.3.4:443"] in
  extract_ip_port_key "vless://q" = None /\
  count_occ string_dec (merge_nodes_by extract_ip_port_key a b) "vless://q" = 1%nat /\
  merge_nodes a b = ["vless://q"; "vless://u@1.2.3.4:443"].
Proof.
  intros a b. split; [reflexivity|]. split.
  - apply (merge_nodes_keeps_keyless extract_ip_port_key a b "vless://q").
    + exact extract_key_not_vless.
    + repeat constructor.
    + cbn. now left.
    + reflexivity.
  - reflexivity.
Defined.

(* ------------------------------------------------------------------ *)
(** ** Decimal numerals *)

Lemma digit_value_of (m : nat) :
  (m < 10)%nat -> digit_value (ascii_of_nat (48 + m)) = Z.of_nat m.
Proof.
  intros Hm. unfold digit_value. rewrite nat_ascii_embedding by lia.
  f_equal. lia.
Qed.

Lemma is_digit_of (m : nat) :
  (m < 10)%nat -> is_digit (ascii_of_nat (48 + m)) = true.
Proof.
  intros Hm. unfold is_digit. rewrite nat_ascii_embedding by lia.
  apply andb_true_intro. split; apply Nat.leb_le; lia.
Qed.

Lemma str_nat_aux_S (f n : nat) (acc : string) :
  str_nat_aux (S f) n acc =
  match n / 10 with
  | O => String (ascii_of_nat (48 + n mod 10)) acc
  | q => str_nat_aux f q (String (ascii_of_nat (48 + n mod 10)) acc)
  end.
Proof. reflexivity. Qed.

Lemma str_nat_aux_spec (f n : nat) (s : string) :
  (n < S f)%nat ->
  digits_val_acc 0 (str_nat_aux (S f) n s) = digits_val_acc (Z.of_nat n) s /\
  all_chars is_digit (str_nat_aux (S f) n s) = all_chars is_digit s /\
  exists c r, str_nat_aux (S f) n s = String c r.
Proof.
  revert n s. induction f as [|f IH]; intros n s Hn.
  - assert (n = 0%nat) by lia. subst n. simpl.
    split; [reflexivity|]. split; [reflexivity|]. eauto.
  - rewrite str_nat_aux_S.
    pose proof (Nat.mod_upper_bound n 10 ltac:(lia)) as Hmod.
    pose proof (Nat.div_mod_eq n 10) as Hdm.
    destruct (n / 10) as [|q] eqn:Hq.
    + cbn [digits_val_acc]. rewrite digit_value_of by exact Hmod.
      split; [f_equal; lia|].
      split; [cbn [all_chars]; now rewrite is_digit_of|]. eauto.
    + assert (Hlt : (S q < S f)%nat) by lia.
      destruct (IH (S q) (String (ascii_of_nat (48 + n mod 10)) s) Hlt)
        as [H1 [H2 H3]].
      rewrite H1, H2. cbn [digits_val_acc].
      rewrite digit_value_of by exact Hmod. cbn [all_chars].
      rewrite is_digit_of by exact Hmod.
      split; [f_equal; lia|]. split; [reflexivity | exact H3].
Qed.

Lemma str_nat_value (n : nat) : digits_val_acc 0 (str_nat n) = Z.of_nat n.
Proof. unfold str_nat. now destruct (str_nat_aux_spec n n EmptyString ltac:(lia)). Qed.

Lemma str_nat_isdigit (n : nat) : ascii_isdigit (str_nat n) = true.
Proof.
  unfold str_nat, ascii_isdigit.
  destruct (str_nat_aux_spec n n EmptyString ltac:(lia)) as [_ [H2 [c [r H3]]]].
  rewrite H3 in *. exact H2.
Qed.

(* ------------------------------------------------------------------ *)
(** ** IPv4 validation *)

Lemma split_on_app (sep : ascii) (x y : string) :
  contains sep x = false ->
  split_on sep (x ++ String sep y) = x :: split_on sep y.
Proof.
  induction x as [|c r IH]; intros Hx; simpl.
  - now rewrite Ascii.eqb_refl.
  - simpl in Hx. apply orb_false_iff in Hx as [Hc Hr].
    rewrite Ascii.eqb_sym, Hc, IH by exact Hr. reflexivity.
Qed.

Lemma split_on_all_chars (p : ascii -> bool) (sep : ascii) (s : string) :
  p sep = false ->
  forallb (all_chars p) (split_on sep s) =
  all_chars (fun c => p c || Ascii.eqb c sep) s.
Proof.
  intros Hsep. induction s as [|c r IH]; simpl; [reflexivity|].
  destruct (Ascii.eqb_spec c sep) as [->|Hne].
  - simpl. rewrite Hsep, IH. reflexivity.
  - rewrite orb_false_r. destruct (split_on sep r) as [|w ws].
    + simpl in *. rewrite <- IH. now rewrite !andb_true_r.
    + simpl in *. rewrite <- IH. now rewrite andb_assoc.
Qed.




Lemma str_nat_nonempty (n : nat) : exists c r, str_nat n = String c r.
Proof.
  unfold str_nat. now destruct (str_nat_aux_spec n n EmptyString ltac:(lia)) as [_ [_ H]].
Qed.

Lemma is_valid_ip_shape :
  forall s : string,
    is_valid_ip s = true ->
    length (split_on "." s) = 4%nat /\
    all_chars is_digit_or_dot s = true /\
    Forall (fun part => (digits_val_acc 0 part <= 255)%Z) (split_on "." s).
Proof.
  intros s Hs. unfold is_valid_ip in Hs.
  destruct s as [|ch t]; [discriminate|].
  apply andb_prop in Hs as [Hlen Hall]. apply Nat.eqb_eq in Hlen.
  split; [exact Hlen|]. split.
  + unfold is_digit_or_dot.
    rewrite <- (split_on_all_chars is_digit "." (String ch t) eq_refl).
    rewrite forallb_forall in Hall |- *. intros part Hp.
    specialize (Hall part Hp). unfold is_valid_octet, ascii_isdigit in Hall.
    destruct part; [discriminate|].
    now apply andb_prop in Hall as [H _].
  + rewrite Forall_forall. rewrite forallb_forall in Hall.
    intros part Hp. specialize (Hall part Hp).
    unfold is_valid_octet in Hall.
    apply andb_prop in Hall as [_ H]. apply andb_prop in H as [_ H].
    now apply Z.leb_le.
Qed.


Example link_ex :
  parse_vless_url default_config
    (create_vless_link default_config "1.2.3.4" 443 "自选1201-01-443-1.2.3.4")
  <> None.
Proof. vm_compute. discriminate. Qed.

(* ------------------------------------------------------------------ *)
(** ** Strings: appending and splitting *)

Lemma str_app_assoc (x y z : string) : (x ++ y) ++ z = x ++ (y ++ z).
Proof. induction x as [|c r IH]; simpl; [reflexivity | now rewrite IH]. Qed.


Lemma contains_app (c : ascii) (x y : string) :
  contains c (x ++ y) = contains c x || contains c y.
Proof.
  induction x as [|d r IH]; simpl; [reflexivity|].
  now rewrite IH, orb_assoc.
Qed.

Lemma all_digits_not_contains (c : ascii) (s : string) :
  is_digit c = false -> all_chars is_digit s = true -> contains c s = false.
Proof.
  intros Hc. induction s as [|d r IH]; simpl; [reflexivity|].
  intros H. apply andb_prop in H as [Hd Hr].
  rewrite IH by exact Hr. rewrite orb_false_r.
  apply Ascii.eqb_neq. intros ->. congruence.
Qed.

Lemma split_once_app (sep : ascii) (x y : string) :
  contains sep x = false ->
  split_once sep (x ++ String sep y) = Some (x, y).
Proof.
  induction x as [|c r IH]; intros Hx; cbn [split_once String.append].
  - now rewrite Ascii.eqb_refl.
  - cbn [contains] in Hx. apply orb_false_iff in Hx as [Hc Hr].
    rewrite Ascii.eqb_sym, Hc, IH by exact Hr. reflexivity.
Qed.

Lemma rsplit_once_none (sep : ascii) (y : string) :
  contains sep y = false -> rsplit_once sep y = None.
Proof.
  induction y as [|c r IH]; intros Hy; cbn [rsplit_once]; [reflexivity|].
  cbn [contains] in Hy. apply orb_false_iff in Hy as [Hc Hr].
  rewrite IH by exact Hr. now rewrite Ascii.eqb_sym, Hc.
Qed.

Lemma rsplit_once_app (sep : ascii) (x y : string) :
  contains sep y = false ->
  rsplit_once sep (x ++ String sep y) = Some (x, y).
Proof.
  intros Hy. induction x as [|c r IH]; cbn [rsplit_once String.append].
  - rewrite rsplit_once_none by exact Hy. now rewrite Ascii.eqb_refl.
  - rewrite IH. reflexivity.
Qed.

Lemma starts_with_app (pre x : string) : starts_with pre (pre ++ x) = true.
Proof.
  induction pre as [|c r IH]; cbn [starts_with String.append]; [reflexivity|].
  now rewrite Ascii.eqb_refl, IH.
Qed.

Lemma substring_all (s : string) : substring 0 (String.length s) s = s.
Proof. induction s as [|c r IH]; simpl; [reflexivity | now rewrite IH]. Qed.

(* ------------------------------------------------------------------ *)
(** ** Python [int] reads back Python [str] *)

Lemma all_chars_rev (p : ascii -> bool) (s : string) :
  all_chars p s = forallb p (list_ascii_of_string s).
Proof. induction s as [|c r IH]; simpl; [reflexivity | now rewrite IH]. Qed.

Lemma lstrip_id (s : string) :
  all_chars (fun c => negb (is_space c)) s = true -> lstrip s = s.
Proof.
  destruct s as [|c r]; simpl; [reflexivity|].
  intros H. apply andb_prop in H as [Hc _].
  apply negb_true_iff in Hc. now rewrite Hc.
Qed.

Lemma strip_id (s : string) :
  all_chars (fun c => negb (is_space c)) s = true -> strip s = s.
Proof.
  intros H. unfold strip, rstrip. rewrite (lstrip_id s H).
  rewrite lstrip_id.
  - rewrite list_ascii_of_string_of_list_ascii, rev_involutive.
    apply string_of_list_ascii_of_string.
  - rewrite all_chars_rev, list_ascii_of_string_of_list_ascii.
    rewrite all_chars_rev in H. rewrite forallb_forall in H |- *.
    intros c Hc. apply H. now apply in_rev.
Qed.

Lemma digits_not_space (s : string) :
  all_chars is_digit s = true -> all_chars (fun c => negb (is_space c)) s = true.
Proof.
  induction s as [|c r IH]; simpl; [reflexivity|].
  intros H. apply andb_prop in H as [Hc Hr]. rewrite IH by exact Hr.
  rewrite andb_true_r. apply negb_true_iff.
  unfold is_digit in Hc. unfold is_space.
  apply andb_prop in Hc as [H1 H2]. apply Nat.leb_le in H1, H2.
  apply orb_false_iff. split; apply andb_false_iff.
  - right. apply Nat.leb_gt. lia.
  - right. apply Nat.leb_gt. lia.
Qed.

Lemma int_body_digits (s : string) (acc : Z) :
  all_chars is_digit s = true -> int_body_acc acc true s = Some (digits_val_acc acc s).
Proof.
  revert acc. induction s as [|c r IH]; intros acc H; [reflexivity|].
  cbn [all_chars] in H. apply andb_prop in H as [Hc Hr].
  cbn [int_body_acc digits_val_acc]. rewrite Hc. now apply IH.
Qed.

Lemma str_nat_digits (n : nat) : all_chars is_digit (str_nat n) = true.
Proof.
  pose proof (str_nat_isdigit n) as H. unfold ascii_isdigit in H.
  now destruct (str_nat n).
Qed.

Lemma int_body_str_nat (n : nat) :
  int_body_acc 0 false (str_nat n) = Some (Z.of_nat n).
Proof.
  rewrite <- str_nat_value. pose proof (str_nat_digits n) as Hd.
  destruct (str_nat_nonempty n) as [c [r Hs]]. rewrite Hs in *.
  cbn [all_chars] in Hd. apply andb_prop in Hd as [Hc Hr].
  cbn [int_body_acc digits_val_acc]. rewrite Hc. now apply int_body_digits.
Qed.

Definition below_127 (c : ascii) : bool := (nat_of_ascii c <? 127)%nat.

Lemma byte_val_ascii (c : ascii) : ascii_of_nat (Z.to_nat (byte_val c)) = c.
Proof. unfold byte_val. rewrite Nat2Z.id. apply ascii_nat_embedding. Qed.

(** On text below 127 the decoding and the transformation of [int] give
    the text back. *)
Lemma int_transform_ascii (s : string) :
  all_chars below_127 s = true ->
  match utf8_decode s with
  | Some cps => int_transform cps
  | None => None
  end = Some s.
Proof.
  induction s as [|c r IH]; intros H; [reflexivity|].
  cbn [all_chars] in H. apply andb_prop in H as [Hc Hr].
  unfold below_127 in Hc. apply Nat.ltb_lt in Hc.
  assert (Hb : (byte_val c < 127)%Z) by (unfold byte_val; lia).
  cbn [utf8_decode]. replace (byte_val c <? 128)%Z with true by (symmetry; apply Z.ltb_lt; lia).
  specialize (IH Hr). destruct (utf8_decode r) as [cps|]; [|discriminate].
  cbn [option_map int_transform]. replace (byte_val c <? 127)%Z with true
    by (symmetry; apply Z.ltb_lt; lia).
  rewrite IH, byte_val_ascii. reflexivity.
Qed.

(** On text below 127, [py_int] is the ASCII parser. *)
Lemma py_int_ascii (s : string) :
  all_chars below_127 s = true -> py_int s = ascii_int s.
Proof.
  intros H. pose proof (int_transform_ascii s H) as E. unfold py_int.
  destruct (utf8_decode s) as [cps|]; [|discriminate]. now rewrite E.
Qed.

Lemma int_lstrip_id (s : string) :
  all_chars (fun c => negb (is_int_space c)) s = true -> int_lstrip s = s.
Proof.
  destruct s as [|c r]; simpl; [reflexivity|].
  intros H. apply andb_prop in H as [Hc _].
  apply negb_true_iff in Hc. now rewrite Hc.
Qed.

Lemma int_strip_id (s : string) :
  all_chars (fun c => negb (is_int_space c)) s = true -> int_strip s = s.
Proof.
  intros H. unfold int_strip. rewrite (int_lstrip_id s H).
  rewrite int_lstrip_id.
  - rewrite list_ascii_of_string_of_list_ascii, rev_involutive.
    apply string_of_list_ascii_of_string.
  - rewrite all_chars_rev, list_ascii_of_string_of_list_ascii.
    rewrite all_chars_rev in H. rewrite forallb_forall in H |- *.
    intros c Hc. apply H. now apply in_rev.
Qed.

Lemma digits_not_int_space (s : string) :
  all_chars is_digit s = true -> all_chars (fun c => negb (is_int_space c)) s = true.
Proof.
  induction s as [|c r IH]; simpl; [reflexivity|].
  intros H. apply andb_prop in H as [Hc Hr]. rewrite IH by exact Hr.
  rewrite andb_true_r. apply negb_true_iff.
  unfold is_digit in Hc. unfold is_int_space.
  apply andb_prop in Hc as [H1 H2]. apply Nat.leb_le in H1, H2.
  apply orb_false_iff. split.
  - apply andb_false_iff. right. apply Nat.leb_gt. lia.
  - apply Nat.eqb_neq. lia.
Qed.

Lemma digits_below_127 (s : string) :
  all_chars is_digit s = true -> all_chars below_127 s = true.
Proof.
  induction s as [|c r IH]; simpl; [reflexivity|].
  intros H. apply andb_prop in H as [Hc Hr]. rewrite IH by exact Hr.
  unfold is_digit in Hc. apply andb_prop in Hc as [_ H2]. apply Nat.leb_le in H2.
  unfold below_127. rewrite andb_true_r. apply Nat.ltb_lt. lia.
Qed.

Lemma str_Z_below_127 (z : Z) : all_chars below_127 (str_Z z) = true.
Proof.
  unfold str_Z. destruct z; try (apply digits_below_127, str_nat_digits).
  cbn [all_chars]. rewrite digits_below_127 by apply str_nat_digits. reflexivity.
Qed.

Lemma py_int_str_Z (z : Z) : py_int (str_Z z) = Some z.
Proof.
  rewrite py_int_ascii by apply str_Z_below_127.
  unfold ascii_int, str_Z. destruct z as [|p|p].
  - reflexivity.
  - rewrite int_strip_id by apply digits_not_int_space, str_nat_digits.
    pose proof (int_body_str_nat (Z.to_nat (Z.pos p))) as Hb.
    rewrite Z2Nat.id in Hb by lia.
    pose proof (str_nat_digits (Z.to_nat (Z.pos p))) as Hd.
    destruct (str_nat (Z.to_nat (Z.pos p))) as [|c r]; [discriminate|].
    cbn [all_chars] in Hd. apply andb_prop in Hd as [Hc _].
    assert (Hplus : Ascii.eqb c "+" = false)
      by (apply Ascii.eqb_neq; intros ->; discriminate Hc).
    assert (Hminus : Ascii.eqb c "-" = false)
      by (apply Ascii.eqb_neq; intros ->; discriminate Hc).
    rewrite Hplus, Hminus. exact Hb.
  - rewrite int_strip_id.
    + cbn [Ascii.eqb]. simpl. rewrite int_body_str_nat. simpl.
      f_equal. lia.
    + cbn [all_chars]. rewrite digits_not_int_space by apply str_nat_digits.
      reflexivity.
Qed.

(* ------------------------------------------------------------------ *)
(** ** The character tables *)










(* ------------------------------------------------------------------ *)
(** ** Octets made of decimal digits *)




















(* ------------------------------------------------------------------ *)
(** ** Synthesised links parse back *)

Lemma str_Z_not_contains (c : ascii) (z : Z) :
  is_digit c = false -> Ascii.eqb c "-" = false -> contains c (str_Z z) = false.
Proof.
  intros Hd Hm. unfold str_Z. destruct z.
  - now apply all_digits_not_contains, str_nat_digits.
  - now apply all_digits_not_contains, str_nat_digits.
  - cbn [contains]. rewrite Hm. now apply all_digits_not_contains, str_nat_digits.
Qed.

Lemma strip_scheme (x : string) :
  substring 8 (String.length ("vless://" ++ x) - 8) ("vless://" ++ x) = x.
Proof. simpl. rewrite Nat.sub_0_r. apply substring_all. Qed.

(** C6: a link built by [create_vless_link] and decomposed by
    [parse_vless_url] gives back its host, its port and the identity token
    (for an identity token without ['@'], such as a UUID, and a host
    without ['?'], such as a dotted quad). *)
Theorem create_parse_roundtrip (cfg : Config) (host : string) (port : Z)
    (label : string) :
  contains "@" (UUID cfg) = false ->
  contains "?" host = false ->
  exists p, parse_vless_url cfg (create_vless_link cfg host port label) = Some p /\
            pi_server p = host /\ pi_port p = port /\ pi_uuid p = UUID cfg.
Proof.
  intros HU HH. unfold create_vless_link.
  set (Q := join "&" _).
  assert (E : "vless://" ++ UUID cfg ++ "@" ++ host ++ ":" ++ str_Z port ++ "?" ++
              Q ++ "#" ++ quote label =
              "vless://" ++ (UUID cfg ++ String "@" ((host ++ String ":" (str_Z port))
                ++ String "?" (Q ++ String "#" (quote label)))))
    by (rewrite str_app_assoc; reflexivity).
  rewrite E. clear E. unfold parse_vless_url, parse_vless_url_r.
  rewrite starts_with_app. cbn beta iota zeta.
  rewrite strip_scheme, split_once_app by exact HU.
  rewrite split_once_app.
  2:{ rewrite contains_app. rewrite HH. cbn [contains].
      rewrite str_Z_not_contains by reflexivity. reflexivity. }
  cbn beta iota zeta.
  rewrite rsplit_once_app by (apply str_Z_not_contains; reflexivity).
  rewrite py_int_str_Z.
  destruct (split_once "#" _) as [[q r]|]; eexists; split; try reflexivity;
    simpl; auto.
Qed.

(** Dotted quads accepted by [is_valid_ip] contain no ['?']. *)
Lemma valid_ip_no_question (ip : string) :
  is_valid_ip ip = true -> contains "?" ip = false.
Proof.
  intros H. apply is_valid_ip_shape in H as [_ [H _]].
  induction ip as [|c r IH]; cbn [contains]; [reflexivity|].
  cbn [all_chars] in H. apply andb_prop in H as [Hc Hr].
  rewrite IH by exact Hr. rewrite orb_false_r.
  apply Ascii.eqb_neq. intros <-. discriminate Hc.
Qed.

Lemma create_parse_roundtrip_witness :
  exists p, parse_vless_url default_config
              (create_vless_link default_config "1.2.3.4" 2053 "自选1201-01-2053-1.2.3.4")
            = Some p /\
            pi_server p = "1.2.3.4" /\ pi_port p = 2053%Z /\
            pi_uuid p = UUID default_config.
Proof. apply create_parse_roundtrip; reflexivity. Defined.

(* ------------------------------------------------------------------ *)
(** ** Label sequence counters *)

Definition counter_value (d : list (string * Z)) (p : string) : Z :=
  match dict_get d p with Some v => v | None => 0%Z end.

Lemma dict_get_set {V} (d : list (string * V)) (k p : string) (v : V) :
  dict_get (dict_set d k v) p = if String.eqb p k then Some v else dict_get d p.
Proof.
  induction d as [|[k' v'] r IH]; simpl.
  - reflexivity.
  - destruct (String.eqb_spec k k') as [->|Hne]; simpl.
    + destruct (String.eqb p k'); reflexivity.
    + rewrite IH. destruct (String.eqb_spec p k), (String.eqb_spec p k');
        congruence.
Qed.

Lemma count_prefix_snoc (p : string) (prev : list (string * Z)) (r : string * Z) :
  count_prefix p (app prev [r]) =
  (count_prefix p prev + if String.eqb (ip_prefix (fst r)) p then 1 else 0)%nat.
Proof.
  induction prev as [|[ip port] t IH]; destruct r as [ip' port']; simpl.
  - lia.
  - simpl in IH. rewrite IH. lia.
Qed.

Lemma str_Z_of_nat (n : nat) : str_Z (Z.of_nat n) = str_nat n.
Proof. unfold str_Z. destruct n; simpl; [reflexivity|]. now rewrite SuccNat2Pos.id_succ. Qed.

Lemma generate_loop_spec (cfg : Config) (today : string) rest :
  forall prev counter,
    (forall p, counter_value counter p = Z.of_nat (count_prefix p prev)) ->
    generate_loop cfg today counter rest = labelled_nodes cfg today prev rest.
Proof.
  induction rest as [|[ip port] rs IH]; intros prev counter Hinv; [reflexivity|].
  cbn [generate_loop labelled_nodes fst].
  pose proof (Hinv (ip_prefix ip)) as Hc. unfold counter_value in Hc.
  rewrite Hc. f_equal.
  - unfold node_with_sequence.
    replace (Z.of_nat (count_prefix (ip_prefix ip) prev) + 1)%Z
      with (Z.of_nat (S (count_prefix (ip_prefix ip) prev))) by lia.
    now rewrite str_Z_of_nat.
  - apply IH. intros p. unfold counter_value.
    rewrite dict_get_set, count_prefix_snoc. cbn [fst].
    rewrite (String.eqb_sym (ip_prefix ip) p).
    destruct (String.eqb_spec p (ip_prefix ip)) as [->|Hne].
    + lia.
    + specialize (Hinv p). unfold counter_value in Hinv. rewrite Hinv. lia.
Qed.

(** C7: each link's label carries as sequence the number of records so
    far (itself included) whose host has its first two dotted octets,
    counted from an empty counter at each call; for
    [(1.2.3.4,P1), (1.2.5.6,P2), (9.9.9.9,P3)] the sequences are 01, 02, 01. *)
Theorem generate_vless_nodes_sequences (cfg : Config) (today : string) :
  (forall pairs,
     generate_vless_nodes cfg today pairs = labelled_nodes cfg today [] pairs) /\
  (forall p1 p2 p3 : Z,
     let fp p := if FORCE_PORT_443 cfg then 443%Z else p in
     generate_vless_nodes cfg today [("1.2.3.4", p1); ("1.2.5.6", p2); ("9.9.9.9", p3)] =
     [create_vless_link cfg "1.2.3.4" (fp p1) (make_remark cfg today "01" (fp p1) "1.2.3.4");
      create_vless_link cfg "1.2.5.6" (fp p2) (make_remark cfg today "02" (fp p2) "1.2.5.6");
      create_vless_link cfg "9.9.9.9" (fp p3) (make_remark cfg today "01" (fp p3) "9.9.9.9")]).
Proof.
  split.
  - intros pairs. apply generate_loop_spec. reflexivity.
  - intros p1 p2 p3. reflexivity.
Qed.

(* ------------------------------------------------------------------ *)
(** ** Rendering *)

Lemma rsplit_once_none_iff (sep : ascii) (s : string) :
  rsplit_once sep s = None <-> contains sep s = false.
Proof.
  induction s as [|c r IH]; cbn [rsplit_once contains]; [tauto|].
  destruct (rsplit_once sep r) as [[a b]|].
  - split; [discriminate|]. intros H. apply orb_false_iff in H as [_ H].
    apply IH in H. discriminate.
  - assert (Hr : contains sep r = false) by (apply IH; reflexivity).
    rewrite Hr, orb_false_r, Ascii.eqb_sym.
    destruct (Ascii.eqb sep c); split; congruence.
Qed.

Lemma parse_vless_url_r_shape (cfg : Config) (url : string) :
  (forall e, parse_vless_url_r cfg url = inl e -> link_shape_ok url = false /\ e = link_error url) /\
  (forall p, parse_vless_url_r cfg url = inr p -> link_shape_ok url = true).
Proof.
  unfold parse_vless_url_r, link_shape_ok, link_error.
  destruct (starts_with "vless://" url); cbn [negb andb].
  2:{ split; [intros e H; injection H as <-; auto | discriminate]. }
  destruct (split_once "@" _) as [[uuid rest]|].
  2:{ split; [intros e H; injection H as <-; auto | discriminate]. }
  destruct (split_once "?" rest) as [[a b]|]; cbn beta iota zeta;
    [ destruct (rsplit_once ":" a) as [[sv ps]|] eqn:Hc
    | destruct (rsplit_once ":" rest) as [[sv ps]|] eqn:Hc ].
  1,3: match goal with
       | |- context [contains ":" ?x] =>
           destruct (contains ":" x) eqn:K;
           [|apply rsplit_once_none_iff in K; congruence]
       end;
       split; [intros e H; destruct (split_once "#" _) as [[q r]|]; discriminate
              | reflexivity].
  all: apply rsplit_once_none_iff in Hc; rewrite Hc;
       split; [intros e H; injection H as <-; auto | discriminate].
Qed.

Lemma parse_vless_url_none (cfg : Config) (url : string) :
  parse_vless_url cfg url = None <-> link_shape_ok url = false.
Proof.
  destruct (parse_vless_url_r_shape cfg url) as [Hl Hr].
  unfold parse_vless_url. destruct (parse_vless_url_r cfg url) as [e|p] eqn:E.
  - split; [intros _; now apply (Hl e) | reflexivity].
  - rewrite (Hr p eq_refl). split; discriminate.
Qed.










(** C5: a node without a label is named ["节点-1.2.3.4:443"]. The rewriting
    of [_validate_yaml] splits every line at its first [':'], so the name
    line becomes a quoted scalar that keeps the inner double quotes, and
    each group member line becomes ["节点-1.2.3.4: 443"] with a space after
    the colon. The member named in both selection groups is not a name of
    the top-level proxies list. *)
Theorem render_group_member_not_listed :
  let doc := generate_clash_yaml default_config "2026-10-17 12:00:00"
               ["vless://u@1.2.3.4:443?type=ws"] in
  doc_group_members doc = ["节点-1.2.3.4: 443"; "节点-1.2.3.4: 443"] /\
  doc_proxy_names doc = [dq ++ "节点-1.2.3.4:443" ++ dq] /\
  ~ In "节点-1.2.3.4: 443" (doc_proxy_names doc).
Proof.
  intros doc.
  assert (M : doc_group_members doc = ["节点-1.2.3.4: 443"; "节点-1.2.3.4: 443"])
    by (vm_compute; reflexivity).
  assert (N : doc_proxy_names doc = [dq ++ "节点-1.2.3.4:443" ++ dq])
    by (vm_compute; reflexivity).
  split; [exact M|]. split; [exact N|].
  rewrite N. cbn. intros [H|[]]. discriminate H.
Qed.

(* ------------------------------------------------------------------ *)
(** ** Age filter *)

(** C8: on 2026-10-17 with a window of 10 days, a node synthesized on
    December 1 carries the label ["自选1201-01-443-1.2.3.4"], whose date
    the month-day pattern reads as 2025-12-01, before the cutoff. The
    filter keeps the node: it searches the whole link, where the label is
    percent-encoded and ["自选"] never occurs, and the date pattern finds
    only ["1201-01-44"], which is no valid date. *)
Theorem age_filter_keeps_expired_node :
  let now := {| dt_year := 2026; dt_month := 10; dt_day := 17;
                dt_usec := 43200000000 |}%Z in
  let nodes := generate_vless_nodes simple_main_config "1201" [("1.2.3.4", 443%Z)] in
  nodes = [create_vless_link simple_main_config "1.2.3.4" 443 "自选1201-01-443-1.2.3.4"] /\
  extract_date_from_node now "自选1201-01-443-1.2.3.4" = Some (2025%Z, 12%Z, 1%Z) /\
  (exists cutoff, cutoff_instant now (MAX_DAYS_TO_KEEP simple_main_config) = Some cutoff /\
                  (date_instant 2025 12 1 < cutoff)%Z) /\
  extract_date_from_node now (hd EmptyString nodes) = None /\
  filter_nodes_by_age simple_main_config now nodes = Some nodes.
Proof.
  intros now nodes.
  split; [vm_compute; reflexivity|].
  split; [vm_compute; reflexivity|].
  split; [eexists; split; [vm_compute; reflexivity | vm_compute; reflexivity]|].
  split; vm_compute; reflexivity.
Qed.

(* ------------------------------------------------------------------ *)
(** ** Upload *)

Lemma b64_char_not_newline (i : Z) : Ascii.eqb newline (b64_char i) = false.
Proof.
  unfold b64_char.
  assert (H : (Z.to_nat (Z.land i 63) < 64)%nat).
  { pose proof (Z.land_ones i 6) as E. change (Z.ones 6) with 63%Z in E.
    change (2 ^ 6)%Z with 64%Z in E. rewrite E by lia.
    pose proof (Z.mod_pos_bound i 64) as B.
    apply Nat2Z.inj_lt. rewrite Z2Nat.id by lia. lia. }
  revert H. generalize (Z.to_nat (Z.land i 63)). intros k Hk.
  do 64 (destruct k as [|k]; [reflexivity|]). lia.
Qed.

Lemma b64encode_no_newline_aux (s : string) :
  contains newline (b64encode s) = false /\
  (forall a, contains newline (b64encode (String a s)) = false) /\
  (forall a b, contains newline (b64encode (String a (String b s))) = false).
Proof.
  induction s as [|c r [IH1 [IH2 IH3]]].
  - repeat split; intros; cbn [b64encode contains];
      rewrite ?b64_char_not_newline; reflexivity.
  - split; [exact (IH2 c)|]. split; [intros a; exact (IH3 a c)|].
    intros a b. cbn [b64encode contains].
    rewrite !b64_char_not_newline, IH1. reflexivity.
Qed.

Lemma b64encode_no_newline (s : string) : contains newline (b64encode s) = false.
Proof. apply b64encode_no_newline_aux. Qed.

Lemma remove_newlines_wrap (n k : nat) (s : string) :
  contains newline s = false -> remove_newlines (wrap_at n k s) = s.
Proof.
  unfold remove_newlines. revert k.
  induction s as [|c r IH]; intros k H; [reflexivity|].
  cbn [contains] in H. apply orb_false_iff in H as [Hc Hr].
  destruct k as [|k]; cbn [wrap_at filter_chars].
  - rewrite Ascii.eqb_refl. cbn [negb filter_chars].
    rewrite Ascii.eqb_sym, Hc, IH by exact Hr. reflexivity.
  - rewrite Ascii.eqb_sym, Hc, IH by exact Hr. reflexivity.
Qed.

(** The content [_get_file_info] compares, when GitHub answers the GET,
    is the base64 text of the stored bytes. *)
Lemma get_file_info_stored (st : Store) (file_path sha blob : string) :
  dict_get st file_path = Some (sha, blob) ->
  get_file_info (github_get st file_path) = Some (sha, b64encode blob).
Proof.
  intros H. unfold github_get. rewrite H. unfold get_file_info, api_content.
  cbn [Z.eqb field_or_empty].
  rewrite remove_newlines_wrap by apply b64encode_no_newline. reflexivity.
Qed.






(* ------------------------------------------------------------------ *)
(** ** Row extraction *)












(* ------------------------------------------------------------------ *)
(** ** Percent-encoding round trip *)

Lemma quote_safe_not_percent (c : ascii) : quote_safe c = true -> Ascii.eqb c "%" = false.
Proof.
  destruct c as [[] [] [] [] [] [] [] []]; vm_compute; intros H;
    first [reflexivity | discriminate H].
Qed.

Lemma hex_digits_of (c : ascii) :
  hex_value (hex_char (nat_of_ascii c / 16)) = Some (nat_of_ascii c / 16) /\
  hex_value (hex_char (nat_of_ascii c mod 16)) = Some (nat_of_ascii c mod 16) /\
  ascii_of_nat (nat_of_ascii c / 16 * 16 + nat_of_ascii c mod 16) = c /\
  quote_safe (hex_char (nat_of_ascii c / 16)) = true /\
  quote_safe (hex_char (nat_of_ascii c mod 16)) = true.
Proof. destruct c as [[] [] [] [] [] [] [] []]; vm_compute; repeat split. Qed.

Lemma unquote_quote_aux (s : string) : unquote (quote s) = s.
Proof.
  induction s as [|c r IH]; [reflexivity|]. cbn [quote].
  destruct (quote_safe c) eqn:Hs.
  - cbn [unquote]. rewrite quote_safe_not_percent by exact Hs. now rewrite IH.
  - destruct (hex_digits_of c) as [H1 [H2 [H3 _]]].
    cbn [unquote]. rewrite Ascii.eqb_refl, H1, H2, H3, IH. reflexivity.
Qed.

Lemma all_chars_not_contains (p : ascii -> bool) (c : ascii) (s : string) :
  all_chars p s = true -> p c = false -> contains c s = false.
Proof.
  intros H Hc. induction s as [|d r IH]; [reflexivity|].
  cbn [all_chars] in H. apply andb_prop in H as [Hd Hr]. cbn [contains].
  rewrite IH by exact Hr. rewrite orb_false_r.
  apply Ascii.eqb_neq. intros <-. congruence.
Qed.

Lemma quote_chars (s : string) :
  all_chars (fun c => quote_safe c || Ascii.eqb c "%") (quote s) = true.
Proof.
  induction s as [|c r IH]; [reflexivity|]. cbn [quote].
  destruct (quote_safe c) eqn:Hs; cbn [all_chars].
  - now rewrite Hs, IH.
  - destruct (hex_digits_of c) as [_ [_ [_ [H4 H5]]]].
    rewrite H4, H5, IH, Ascii.eqb_refl, orb_true_r. reflexivity.
Qed.

Lemma quote_not_contains (c : ascii) (s : string) :
  quote_safe c = false -> Ascii.eqb c "%" = false -> contains c (quote s) = false.
Proof.
  intros H1 H2. apply (all_chars_not_contains _ _ _ (quote_chars s)).
  now rewrite H1, H2.
Qed.

Lemma split_on_none (sep : ascii) (x : string) :
  contains sep x = false -> split_on sep x = [x].
Proof.
  induction x as [|c r IH]; intros H; [reflexivity|].
  cbn [contains] in H. apply orb_false_iff in H as [Hc Hr]. cbn [split_on].
  rewrite Ascii.eqb_sym, Hc, IH by exact Hr. reflexivity.
Qed.

Lemma split_on_join (sep : ascii) (xs : list string) :
  xs <> [] -> Forall (fun x => contains sep x = false) xs ->
  split_on sep (join (String sep EmptyString) xs) = xs.
Proof.
  induction xs as [|x [|y r] IH]; intros Hne Hall; [congruence| |].
  - inversion Hall. cbn [join]. now apply split_on_none.
  - inversion Hall as [|? ? Hx Hr]. subst.
    change (join (String sep EmptyString) (x :: y :: r))
      with (x ++ String sep (join (String sep EmptyString) (y :: r))).
    rewrite split_on_app by exact Hx. f_equal. apply IH; [congruence | exact Hr].
Qed.

Lemma parse_params_quoted (d : list (string * string)) (kvs : list (string * string)) :
  Forall (fun kv => contains "=" (fst kv) = false) kvs ->
  parse_params d (map (fun kv => fst kv ++ "=" ++ quote (snd kv)) kvs) =
  fold_left (fun d kv => dict_set d (fst kv) (snd kv)) kvs d.
Proof.
  revert d. induction kvs as [|[k v] r IH]; intros d Hall; [reflexivity|].
  inversion Hall as [|? ? Hk Hr]. subst. cbn [map parse_params fold_left fst snd].
  change ("=" ++ quote v) with (String "=" (quote v)).
  rewrite split_once_app by exact Hk. rewrite unquote_quote_aux. now apply IH.
Qed.

(** Everything [_parse_vless_url] reads from a link [_create_vless_link]
    built. *)
Lemma create_parse_core (cfg : Config) (host : string) (port : Z) (label : string) :
  contains "@" (UUID cfg) = false -> contains "?" host = false ->
  parse_vless_url cfg (create_vless_link cfg host port label) =
  Some {| pi_name := match label with
                     | EmptyString => "节点-" ++ host ++ ":" ++ str_Z port
                     | _ => label
                     end;
          pi_type := "vless"; pi_server := host; pi_port := port;
          pi_uuid := UUID cfg; pi_network := "ws"; pi_tls := true;
          pi_sni := SNI cfg; pi_host := HOST cfg; pi_path := CUSTOM_PATH cfg;
          pi_alpn := ["h2"; "http/1.1"]; pi_fingerprint := FINGERPRINT cfg;
          pi_udp := true; pi_skip_cert_verify := false |}.
Proof.
  intros HU HH. unfold create_vless_link.
  set (items := map (fun kv => fst kv ++ "=" ++ quote (snd kv)) (vless_params cfg)).
  set (Q := join "&" items).
  assert (HQ : contains "#" Q = false /\ contains "?" Q = false).
  { assert (G : forall c, quote_safe c = false -> Ascii.eqb c "%" = false ->
                Ascii.eqb c "&" = false -> Ascii.eqb c "=" = false ->
                contains c Q = false).
    { intros c H1 H2 H3 H4. subst Q items. unfold vless_params. cbn [map fst snd].
      cbn [join]. rewrite !contains_app. cbn [contains].
      rewrite !quote_not_contains by assumption.
      destruct c as [[] [] [] [] [] [] [] []]; vm_compute in H1, H2, H3, H4 |- *;
        congruence. }
    split; apply G; reflexivity. }
  destruct HQ as [HQ1 HQ2].
  assert (E : "vless://" ++ UUID cfg ++ "@" ++ host ++ ":" ++ str_Z port ++ "?" ++
              Q ++ "#" ++ quote label =
              "vless://" ++ (UUID cfg ++ String "@" ((host ++ String ":" (str_Z port))
                ++ String "?" (Q ++ String "#" (quote label)))))
    by (rewrite str_app_assoc; reflexivity).
  rewrite E. clear E. unfold parse_vless_url, parse_vless_url_r.
  rewrite starts_with_app. cbn beta iota zeta.
  rewrite strip_scheme, split_once_app by exact HU.
  rewrite split_once_app.
  2:{ rewrite contains_app. rewrite HH. cbn [contains].
      rewrite str_Z_not_contains by reflexivity. reflexivity. }
  cbn beta iota zeta.
  rewrite rsplit_once_app by (apply str_Z_not_contains; reflexivity).
  rewrite py_int_str_Z, split_once_app by exact HQ1.
  cbn beta iota zeta. rewrite unquote_quote_aux.
  assert (HP : match Q with
               | EmptyString => []
               | String _ _ => parse_params [] (split_on "&" Q)
               end = fold_left (fun d kv => dict_set d (fst kv) (snd kv))
                               (vless_params cfg) []).
  { assert (Hs : split_on "&" Q = items).
    { apply split_on_join; [discriminate|]. subst items. unfold vless_params.
      cbn [map fst snd].
      repeat (apply Forall_cons; [rewrite !contains_app; cbn [contains];
        rewrite quote_not_contains by reflexivity; reflexivity|]).
      apply Forall_nil. }
    assert (Hne : exists c r, Q = String c r).
    { subst Q items. unfold vless_params. cbn [map fst snd join String.append].
      eauto. }
    destruct Hne as [c [r Hcr]]. rewrite Hcr. rewrite <- Hcr, Hs.
    subst items. apply parse_params_quoted. unfold vless_params.
    repeat (apply Forall_cons; [reflexivity|]). apply Forall_nil. }
  rewrite HP. reflexivity.
Qed.

(** [urllib.parse.quote] (default [safe='/']) writes only unreserved
    characters, ['/'] and ['%'] escapes, and [unquote] gives back the
    quoted text exactly. *)
Theorem quote_unquote_roundtrip (s : string) :
  all_chars (fun c => quote_safe c || Ascii.eqb c "%") (quote s) = true /\
  unquote (quote s) = s.
Proof. split; [apply quote_chars | apply unquote_quote_aux]. Qed.

(** A link built by [_create_vless_link] is read back by
    [_parse_vless_url] with every field the synthesizer put in: the
    label as name (the fallback name for an empty label), host, port,
    UUID, transport [ws] with TLS, and the configured SNI, host header,
    path, fingerprint and ALPN list. *)
Theorem synthesized_link_fields (cfg : Config) (host : string) (port : Z)
    (label : string) :
  contains "@" (UUID cfg) = false -> contains "?" host = false ->
  parse_vless_url cfg (create_vless_link cfg host port label) =
  Some {| pi_name := match label with
                     | EmptyString => "节点-" ++ host ++ ":" ++ str_Z port
                     | _ => label
                     end;
          pi_type := "vless"; pi_server := host; pi_port := port;
          pi_uuid := UUID cfg; pi_network := "ws"; pi_tls := true;
          pi_sni := SNI cfg; pi_host := HOST cfg; pi_path := CUSTOM_PATH cfg;
          pi_alpn := ["h2"; "http/1.1"]; pi_fingerprint := FINGERPRINT cfg;
          pi_udp := true; pi_skip_cert_verify := false |}.
Proof. apply create_parse_core. Qed.

Lemma synthesized_link_fields_witness :
  parse_vless_url default_config
    (create_vless_link default_config "104.16.1.2" 443 "香港节点-1017-01-443-104.16.1.2") =
  Some {| pi_name := "香港节点-1017-01-443-104.16.1.2";
          pi_type := "vless"; pi_server := "104.16.1.2"; pi_port := 443;
          pi_uuid := UUID default_config; pi_network := "ws"; pi_tls := true;
          pi_sni := SNI default_config; pi_host := HOST default_config;
          pi_path := CUSTOM_PATH default_config;
          pi_alpn := ["h2"; "http/1.1"]; pi_fingerprint := FINGERPRINT default_config;
          pi_udp := true; pi_skip_cert_verify := false |}.
Proof. apply (synthesized_link_fields default_config); reflexivity. Defined.

(** Links from [generate_vless_nodes] are all parsed by the renderer: one
    proxy per input record, in order, with the record's IP as server and
    the final port (443 when [FORCE_PORT_443] is set). *)
Theorem generated_nodes_all_render (cfg : Config) (today : string)
    (pairs : list (string * Z)) :
  contains "@" (UUID cfg) = false ->
  Forall (fun pr => contains "?" (fst pr) = false) pairs ->
  map (fun p => (pi_server p, pi_port p))
      (parsed_proxies cfg (generate_vless_nodes cfg today pairs)) =
  map (fun pr => (fst pr, if FORCE_PORT_443 cfg then 443%Z else snd pr)) pairs.
Proof.
  intros HU Hall. unfold generate_vless_nodes. generalize (@nil (string * Z)).
  induction Hall as [|[ip port] rs Hip Hr IH]; intros counter; [reflexivity|].
  cbn [generate_loop parsed_proxies flat_map fst snd] in *.
  rewrite create_parse_core by assumption. cbn [app map].
  fold (parsed_proxies cfg (generate_loop cfg today
          (dict_set counter (ip_prefix ip)
             (match dict_get counter (ip_prefix ip) with Some v => v | None => 0 end + 1)%Z)
          rs)).
  now rewrite IH.
Qed.

Lemma generated_nodes_all_render_witness :
  map (fun p => (pi_server p, pi_port p))
      (parsed_proxies default_config
         (generate_vless_nodes default_config "1017"
            [("1.2.3.4", 2053%Z); ("5.6.7.8", 8443%Z)])) =
  [("1.2.3.4", 443%Z); ("5.6.7.8", 443%Z)].
Proof.
  apply (generated_nodes_all_render default_config "1017"); [reflexivity|].
  repeat (apply Forall_cons; [reflexivity|]). apply Forall_nil.
Defined.

(* ------------------------------------------------------------------ *)
(** ** Rendering: edge cases and sanitising *)

(** When no node parses (the empty list included), [generate_clash_yaml]
    returns the minimal configuration with an empty proxy list. *)
Theorem render_nothing_parsed_is_minimal (cfg : Config) (timestamp : string)
    (nodes : list string) :
  Forall (fun n => link_shape_ok n = false) nodes ->
  generate_clash_yaml cfg timestamp nodes = generate_empty_yaml.
Proof.
  intros Hall.
  assert (H : parsed_proxies cfg nodes = []).
  { induction Hall as [|n r Hn Hr IH]; [reflexivity|].
    cbn [parsed_proxies flat_map]. apply (parse_vless_url_none cfg) in Hn.
    rewrite Hn. exact IH. }
  unfold generate_clash_yaml. rewrite H. destruct nodes; reflexivity.
Qed.

Lemma render_nothing_parsed_is_minimal_witness :
  generate_clash_yaml default_config "2026-10-17 12:00:00"
    ["http://1.2.3.4:443"; "vless://1.2.3.4:443"; "vless://u@1.2.3.4?type=ws"] =
  generate_empty_yaml.
Proof.
  apply render_nothing_parsed_is_minimal.
  repeat (apply Forall_cons; [vm_compute; reflexivity|]). apply Forall_nil.
Defined.



(* ------------------------------------------------------------------ *)
(** ** Merging: what both merge loops keep *)







































(* ------------------------------------------------------------------ *)
(** ** Download: decoding the API content *)

Section Base64.
Local Open Scope Z_scope.

Lemma byte_high (x i : Z) : 0 <= x < 256 -> 8 <= i -> Z.testbit x i = false.
Proof.
  intros Hx Hi. destruct (Z.eq_dec x 0) as [->|Hn]; [apply Z.testbit_0_l|].
  apply Z.bits_above_log2; [lia|]. apply Z.log2_lt_pow2; [lia|].
  apply Z.lt_le_trans with (2 ^ 8); [exact (proj2 Hx)|]. apply Z.pow_le_mono_r; lia.
Qed.

Ltac bits :=
  repeat match goal with
  | |- context [Z.testbit (Z.lor ?a ?b) ?k] => rewrite (Z.lor_spec a b k)
  | |- context [Z.testbit (Z.land ?a ?b) ?k] => rewrite (Z.land_spec a b k)
  | |- context [Z.testbit (Z.shiftr ?a ?n) ?k] =>
      first [ rewrite (Z.shiftr_spec a n k) by lia
            | rewrite (Z.testbit_neg_r (Z.shiftr a n) k) by lia ]
  | |- context [Z.testbit (Z.shiftl ?a ?n) ?k] =>
      first [ rewrite (Z.shiftl_spec a n k) by lia
            | rewrite (Z.testbit_neg_r (Z.shiftl a n) k) by lia ]
  end;
  repeat match goal with
  | |- context [Z.testbit ?x ?k] =>
      let k' := eval vm_compute in k in progress change k with k'
  end;
  repeat match goal with
  | |- context [Z.testbit (Zpos ?p) ?k] =>
      let b := eval vm_compute in (Z.testbit (Zpos p) k) in
      change (Z.testbit (Zpos p) k) with b
  | |- context [Z.testbit ?x (Zneg ?p)] => rewrite (Z.testbit_neg_r x (Zneg p)) by lia
  | H : 0 <= ?x < 256 |- context [Z.testbit ?x ?k] =>
      rewrite (byte_high x k H) by lia
  end;
  rewrite ?andb_true_r, ?andb_false_r, ?orb_false_r, ?orb_false_l; try reflexivity.

Lemma group_bytes (A B C : Z) :
  0 <= A < 256 -> 0 <= B < 256 -> 0 <= C < 256 ->
  let n := Z.lor (Z.shiftl A 16) (Z.lor (Z.shiftl B 8) C) in
  let v0 := Z.land (Z.shiftr n 18) 63 in
  let v1 := Z.land (Z.shiftr n 12) 63 in
  let v2 := Z.land (Z.shiftr n 6) 63 in
  let v3 := Z.land n 63 in
  Z.land (Z.lor (Z.shiftl v0 2) (Z.shiftr v1 4)) 255 = A /\
  Z.land (Z.lor (Z.shiftl (Z.land v1 15) 4) (Z.shiftr v2 2)) 255 = B /\
  Z.land (Z.lor (Z.shiftl (Z.land v2 3) 6) v3) 255 = C.
Proof.
  intros HA HB HC n v0 v1 v2 v3. subst n v0 v1 v2 v3.
  split; [|split]; apply Z.bits_inj'; intros i Hi;
  (destruct (Z.lt_ge_cases i 8) as [Hlt|Hge];
   [ assert (i = 0 \/ i = 1 \/ i = 2 \/ i = 3 \/ i = 4 \/ i = 5 \/ i = 6 \/ i = 7) as Hc by lia;
     destruct Hc as [->|[->|[->|[->|[->|[->|[->| ->]]]]]]]; bits
   | rewrite Z.land_spec, (byte_high 255 i) by lia; rewrite andb_false_r;
     symmetry; apply byte_high; assumption ]).
Qed.

Lemma b64_index_alphabet (k : nat) :
  (k < 64)%nat ->
  b64_index (match String.get k b64_alphabet with Some c => c | None => "A"%char end)
  = Some (Z.of_nat k).
Proof.
  intros Hk. do 64 (destruct k as [|k]; [reflexivity|]). lia.
Qed.

Lemma b64_index_char (i : Z) : b64_index (b64_char i) = Some (Z.land i 63).
Proof.
  unfold b64_char.
  assert (H : (0 <= Z.land i 63 < 64)%Z)
    by (change 63 with (Z.ones 6); rewrite (Z.land_ones i 6) by lia;
        apply Z.mod_pos_bound; lia).
  rewrite b64_index_alphabet by lia. f_equal. lia.
Qed.

Lemma b64_index_char_class (c : ascii) (v : Z) :
  b64_index c = Some v -> Ascii.eqb c "=" = false /\ (nat_of_ascii c <? 128)%nat = true.
Proof. destruct c as [[] [] [] [] [] [] [] []]; vm_compute; intros H; try discriminate; auto. Qed.

Lemma b64_char_eq_false (i : Z) : Ascii.eqb (b64_char i) "=" = false.
Proof. exact (proj1 (b64_index_char_class _ _ (b64_index_char i))). Qed.

Lemma byte_Z_range (c : ascii) : (0 <= byte_Z c < 256)%Z.
Proof. unfold byte_Z. pose proof (nat_ascii_bounded c). lia. Qed.

Lemma out_byte_byte (x : Z) (c : ascii) : Z.land x 255 = byte_Z c -> out_byte x = c.
Proof.
  unfold out_byte, byte_Z. intros ->. rewrite Nat2Z.id. apply ascii_nat_embedding.
Qed.

Lemma b64encode_ascii (s : string) :
  all_chars (fun c => (nat_of_ascii c <? 128)%nat) (b64encode s) = true.
Proof.
  assert (Hc : forall i, (nat_of_ascii (b64_char i) <? 128)%nat = true)
    by (intros i; exact (proj2 (b64_index_char_class _ _ (b64_index_char i)))).
  induction s as [s IH] using (induction_ltof1 _ String.length). unfold ltof in IH.
  destruct s as [|a [|b [|c r]]]; cbn [b64encode all_chars]; rewrite ?Hc; try reflexivity.
  apply IH. cbn. lia.
Qed.

Lemma a2b_base64_b64encode (s : string) : a2b_base64 0 0 0 (b64encode s) = Some s.
Proof.
  induction s as [s IH] using (induction_ltof1 _ String.length). unfold ltof in IH.
  destruct s as [|a [|b [|c r]]]; [reflexivity| | |].
  - cbn [b64encode a2b_base64]. rewrite !b64_char_eq_false, !b64_index_char.
    cbn [option_map Ascii.eqb Nat.leb Z.of_nat Z.add Z.leb].
    destruct (group_bytes (byte_Z a) 0 0 (byte_Z_range a) ltac:(lia) ltac:(lia))
      as [H1 _].
    rewrite Z.shiftl_0_l, !Z.lor_0_r in H1.
    rewrite (out_byte_byte _ a H1). reflexivity.
  - cbn [b64encode a2b_base64]. rewrite !b64_char_eq_false, !b64_index_char.
    destruct (group_bytes (byte_Z a) (byte_Z b) 0 (byte_Z_range a) (byte_Z_range b) ltac:(lia))
      as [H1 [H2 _]].
    rewrite !Z.lor_0_r in H1, H2.
    rewrite (out_byte_byte _ a H1), (out_byte_byte _ b H2). reflexivity.
  - cbn [b64encode a2b_base64]. rewrite !b64_char_eq_false, !b64_index_char.
    destruct (group_bytes (byte_Z a) (byte_Z b) (byte_Z c)
                (byte_Z_range a) (byte_Z_range b) (byte_Z_range c)) as [H1 [H2 H3]].
    rewrite IH by (cbn; lia). cbn [option_map].
    rewrite (out_byte_byte _ a H1), (out_byte_byte _ b H2), (out_byte_byte _ c H3).
    reflexivity.
Qed.

End Base64.

Lemma download_file_eq (st : Store) (file_path : string) :
  download_file (github_get st file_path) =
  match dict_get st file_path with
  | Some (_, blob) => if utf8_valid blob then Some blob else None
  | None => None
  end.
Proof.
  unfold github_get. destruct (dict_get st file_path) as [[sha blob]|]; [|reflexivity].
  unfold download_file. cbn [Z.eqb Pos.eqb negb field_or_empty].
  assert (Hr : remove_newlines (api_content blob) = b64encode blob)
    by (unfold api_content; apply remove_newlines_wrap, b64encode_no_newline).
  assert (Hd : b64decode (b64encode blob) = Some blob)
    by (unfold b64decode; rewrite b64encode_ascii; apply a2b_base64_b64encode).
  cbv zeta. rewrite Hr, Hd.
  destruct (api_content blob) as [|c r] eqn:E; [|reflexivity].
  exfalso. unfold api_content in E. destruct (b64encode blob); discriminate.
Qed.

Lemma download_file_failed (ans : GetAnswer) :
  (forall status sha content, ans = GetResponse status sha content -> status <> 200%Z) ->
  download_file ans = None.
Proof.
  intros H. destruct ans as [|status sha content]; [reflexivity|].
  unfold download_file. specialize (H status sha content eq_refl).
  apply Z.eqb_neq in H. rewrite H. reflexivity.
Qed.

(** [download_file], when GitHub answers its GET, gives back exactly the
    text stored at the path when it is valid UTF-8, and [None] when the
    path is missing (404) or the stored bytes are not valid UTF-8: the
    API's wrapped base64 is decoded back to the stored bytes. Any other
    answer than 200, or a request that raises, gives [None]. *)
Theorem download_file_stored (st : Store) (file_path : string) :
  download_file (github_get st file_path) =
  match dict_get st file_path with
  | Some (_, blob) => if utf8_valid blob then Some blob else None
  | None => None
  end /\
  download_file GetRaised = None /\
  (forall status sha content, status <> 200%Z ->
     download_file (GetResponse status sha content) = None).
Proof.
  split; [exact (download_file_eq st file_path)|]. split; [reflexivity|].
  intros status sha content Hs. apply download_file_failed.
  intros status' sha' content' E. injection E as <- <- <-. exact Hs.
Qed.

(* ------------------------------------------------------------------ *)
(** ** Validation: no trailing whitespace *)


















(* ------------------------------------------------------------------ *)
(** ** Reading the subscription back *)

Lemma utf8_valid_ascii (s : string) :
  all_chars (fun c => (nat_of_ascii c <? 128)%nat) s = true -> utf8_valid s = true.
Proof.
  induction s as [|c r IH]; [reflexivity|].
  cbn [all_chars utf8_valid]. intros H. apply andb_prop in H as [Hc Hr].
  rewrite Hc. exact (IH Hr).
Qed.

Lemma b64decode_utf8_b64encode (s : string) :
  utf8_valid s = true -> b64decode_utf8 (b64encode s) = Some s.
Proof.
  intros Hu. unfold b64decode_utf8, b64decode.
  rewrite b64encode_ascii, a2b_base64_b64encode, Hu. reflexivity.
Qed.

Lemma b64decode_utf8_vl (r : string) :
  b64decode_utf8 (String "v" (String "l" r)) = None.
Proof.
  unfold b64decode_utf8, b64decode.
  destruct (all_chars _ _); [|reflexivity].
  cbn [a2b_base64 Ascii.eqb Bool.eqb].
  replace (b64_index "v") with (Some 47%Z) by reflexivity.
  replace (b64_index "l") with (Some 37%Z) by reflexivity.
  destruct (a2b_base64 2 _ 0 r); reflexivity.
Qed.

Lemma starts_with_vless (n : string) :
  starts_with "vless://" n = true -> exists r, n = String "v" (String "l" r).
Proof.
  destruct n as [|a [|b r]]; cbn [starts_with]; intros H; try discriminate.
  - apply andb_prop in H as [_ H]. discriminate.
  - apply andb_prop in H as [Ha H]. apply andb_prop in H as [Hb _].
    apply Ascii.eqb_eq in Ha, Hb. subst. exists r. reflexivity.
Qed.

Lemma stripped_lines_lines (nodes : list string) :
  nodes <> [] ->
  Forall (fun n => n <> EmptyString /\ py_strip n = n /\ contains newline n = false) nodes ->
  stripped_lines (lines nodes) = nodes.
Proof.
  intros Hne Hall. unfold stripped_lines, lines.
  change (String (ascii_of_nat 10) EmptyString) with (String "010" EmptyString).
  rewrite split_on_join.
  - clear Hne. induction Hall as [|n r [Hn [Hs _]] _ IH]; [reflexivity|].
    cbn [flat_map]. rewrite Hs, IH. destruct n; [congruence|reflexivity].
  - exact Hne.
  - eapply Forall_impl; [|exact Hall]. intros n [_ [_ H]]. exact H.
Qed.

(** [run] reads back the subscription it stores: when the subscription
    file holds the base64 of the node lines, and each node starts with
    "vless://", is stripped and holds no newline, and the text is valid
    UTF-8, the double decode fails (the decoded bytes start with 0xBE,
    not UTF-8), the single decode succeeds, and the remote nodes are
    exactly the stored nodes, in order. This needs GitHub to answer the
    GET: when the GET is answered with another status than 200, or
    raises, no remote node is read. *)
Theorem run_reads_back_subscription (st : Store) (file_path sha : string)
  (nodes : list string) :
  dict_get st file_path = Some (sha, b64encode (lines nodes)) ->
  Forall (fun n => starts_with "vless://" n = true /\ py_strip n = n /\
                   contains newline n = false) nodes ->
  utf8_valid (lines nodes) = true ->
  remote_nodes_of (download_file (github_get st file_path)) = nodes /\
  remote_nodes_of (download_file GetRaised) = [] /\
  (forall status sha' content, status <> 200%Z ->
     remote_nodes_of (download_file (GetResponse status sha' content)) = []).
Proof.
  intros Hst Hall Hu.
  split; [|split; [reflexivity|]].
  2:{ intros status sha' content Hs. rewrite download_file_failed; [reflexivity|].
      intros status' sha'' content' E. injection E as <- <- <-. exact Hs. }
  rewrite download_file_eq, Hst, (utf8_valid_ascii _ (b64encode_ascii _)).
  destruct nodes as [|n1 rest]; [reflexivity|].
  assert (Hn1 : starts_with "vless://" n1 = true) by (inversion Hall; tauto).
  destruct (starts_with_vless n1 Hn1) as [t Et].
  assert (Hvl : exists t', lines (n1 :: rest) = String "v" (String "l" t')).
  { subst n1. destruct rest as [|y r]; cbn [lines join]; eexists; reflexivity. }
  destruct Hvl as [t' Ev].
  assert (Hd : b64decode_utf8 (b64encode (lines (n1 :: rest))) = Some (lines (n1 :: rest)))
    by (apply b64decode_utf8_b64encode, Hu).
  assert (Hd2 : b64decode_utf8 (lines (n1 :: rest)) = None)
    by (rewrite Ev; apply b64decode_utf8_vl).
  unfold remote_nodes_of.
  destruct (b64encode (lines (n1 :: rest))) as [|c r] eqn:Eb.
  { rewrite Ev in Eb. destruct t' as [|? ?]; discriminate. }
  cbv beta iota zeta. rewrite Hd, Hd2.
  rewrite stripped_lines_lines.
  - apply forallb_filter_id, forallb_forall. intros x Hx.
    rewrite Forall_forall in Hall. apply (Hall x Hx).
  - discriminate.
  - eapply Forall_impl; [|exact Hall]. intros n [Hs [Hst' Hnl]].
    split; [|tauto]. intros ->. discriminate.
Qed.

Lemma run_reads_back_subscription_witness :
  remote_nodes_of
    (download_file (github_get
       [("AutoNode", ("sha0", b64encode (lines ["vless://u@1.2.3.4:443?encryption=none#a";
                                                  "vless://u@5.6.7.8:443?encryption=none#b"])))]
       "AutoNode"))
  = ["vless://u@1.2.3.4:443?encryption=none#a"; "vless://u@5.6.7.8:443?encryption=none#b"] /\
  remote_nodes_of (download_file GetRaised) = [] /\
  (forall status sha' content, status <> 200%Z ->
     remote_nodes_of (download_file (GetResponse status sha' content)) = []).
Proof.
  apply (run_reads_back_subscription _ "AutoNode" "sha0"
           ["vless://u@1.2.3.4:443?encryption=none#a"; "vless://u@5.6.7.8:443?encryption=none#b"]).
  - reflexivity.
  - repeat constructor.
  - reflexivity.
Defined.
